(** * ARC payload processor: a Rocq model of [payload-processor-esm.js]

    The class [PayloadProcessor] turns the payload of a request object
    ([FormData] or [Blob]) into plain data that a datastore can keep, and
    restores it.  The model below follows the JavaScript source function by
    function and keeps its names.

    Conventions.
    - A JavaScript string is a [string]; its characters are code units below
      256, which is all a data URL and a binary string hold.
    - A JavaScript object used as a record (the request, a part of the
      [multipart] array) is a [gmap string Value]: a missing key reads as
      [undefined].
    - [throw]/[try]/[catch] is the error monad [Completion].
    - A promise is a tree whose only suspension is a pending [FileReader]
      read; it is settled against a reader that answers each read.
    - [console.warn] appends to a log that is returned with the result.
    - A number is a safe integer; the only numbers the program reads are the
      [length] of an array or of a string. *)

From Stdlib Require Import ZArith NArith String Ascii List Lia DecimalString.
From Stdlib.Strings Require Import Byte.
From stdpp Require Import base option gmap strings list.

#[local] Set Warnings "-register-all".
#[local] Open Scope string_scope.
#[local] Open Scope list_scope.
#[local] Open Scope stdpp_scope.

(** ** Platform: strings, regular expression, base64 *)

Module Js.

(** [String.prototype.split(sep)] for a separator of one character.  The
    result is never empty: a string without the separator gives a list of
    one element. *)
Fixpoint split (sep : ascii) (s : string) : list string :=
  match s with
  | EmptyString => [EmptyString]
  | String c r =>
      if Ascii.eqb c sep then EmptyString :: split sep r
      else match split sep r with
           | h :: t => String c h :: t
           | [] => [String c EmptyString]
           end
  end.

(** Line terminators below 256: the characters that [.] of a regular
    expression does not match. *)
Definition is_line_terminator (c : ascii) : bool :=
  Ascii.eqb c "010" || Ascii.eqb c "013".

(** [(.*?);] anchored at the head of [s]: the lazy star takes the fewest
    characters, so the group ends at the first [;], and fails when a line
    terminator or the end of the string comes first. *)
Fixpoint lazy_dots_semicolon (s : string) : option string :=
  match s with
  | EmptyString => None
  | String c r =>
      if Ascii.eqb c ";" then Some EmptyString
      else if is_line_terminator c then None
      else String c <$> lazy_dots_semicolon r
  end.

(** [s.match(/:(.*?);/)]: the leftmost position where the pattern matches;
    the result is capture group 1, [None] stands for [null]. *)
Fixpoint match_colon_group_semicolon (s : string) : option string :=
  match s with
  | EmptyString => None
  | String c r =>
      if Ascii.eqb c ":" then
        match lazy_dots_semicolon r with
        | Some g => Some g
        | None => match_colon_group_semicolon r
        end
      else match_colon_group_semicolon r
  end.

(** *** base64 *)

(** The value of a character of the standard base64 alphabet. *)
Definition b64_index (c : ascii) : option N :=
  let n := N_of_ascii c in
  if (65 <=? n)%N && (n <=? 90)%N then Some (n - 65)%N
  else if (97 <=? n)%N && (n <=? 122)%N then Some (n - 71)%N
  else if (48 <=? n)%N && (n <=? 57)%N then Some (n + 4)%N
  else if (n =? 43)%N then Some 62%N
  else if (n =? 47)%N then Some 63%N
  else None.

(** The character of a six-bit value. *)
Definition b64_char (n : N) : ascii :=
  if (n <? 26)%N then ascii_of_N (n + 65)
  else if (n <? 52)%N then ascii_of_N (n + 71)
  else if (n <? 62)%N then ascii_of_N (n - 4)
  else if (n =? 62)%N then "+"%char
  else "/"%char.

(** Three octets as four sextets. *)
Definition sextet1 (x : N) : N := (x / 4)%N.
Definition sextet2 (x y : N) : N := ((x mod 4) * 16 + y / 16)%N.
Definition sextet3 (y z : N) : N := ((y mod 16) * 4 + z / 64)%N.
Definition sextet4 (z : N) : N := (z mod 64)%N.

(** Four sextets as three octets. *)
Definition octet1 (a b : N) : N := (a * 4 + b / 16)%N.
Definition octet2 (b c : N) : N := ((b mod 16) * 16 + c / 4)%N.
Definition octet3 (c d : N) : N := ((c mod 4) * 64 + d)%N.

(** The standard base64 encoding of a byte sequence, with [=] padding. *)
Fixpoint b64_encode (l : list byte) : list ascii :=
  match l with
  | x :: y :: z :: r =>
      let x := Byte.to_N x in
      let y := Byte.to_N y in
      let z := Byte.to_N z in
      b64_char (sextet1 x) :: b64_char (sextet2 x y)
        :: b64_char (sextet3 y z) :: b64_char (sextet4 z) :: b64_encode r
  | [x; y] =>
      let x := Byte.to_N x in
      let y := Byte.to_N y in
      [b64_char (sextet1 x); b64_char (sextet2 x y);
       b64_char (sextet3 y 0); "="%char]
  | [x] =>
      let x := Byte.to_N x in
      [b64_char (sextet1 x); b64_char (sextet2 x 0); "="%char; "="%char]
  | [] => []
  end.

(** ASCII whitespace of the forgiving decoder: TAB, LF, FF, CR, SPACE. *)
Definition is_ascii_whitespace (c : ascii) : bool :=
  let n := N_of_ascii c in
  (n =? 9)%N || (n =? 10)%N || (n =? 12)%N || (n =? 13)%N || (n =? 32)%N.

(** Removes one or two [=] from the end of the data. *)
Fixpoint strip_padding (l : list ascii) : list ascii :=
  match l with
  | [] => []
  | c :: r =>
      match r with
      | [] => if Ascii.eqb c "=" then [] else [c]
      | [d] =>
          if Ascii.eqb d "=" then (if Ascii.eqb c "=" then [] else [c])
          else [c; d]
      | _ :: _ :: _ => c :: strip_padding r
      end
  end.

(** The bytes of a sequence of sextets; the bits left over at the end (four
    after two sextets, two after three) are dropped. *)
Fixpoint decode_sextets (l : list N) : list ascii :=
  match l with
  | a :: b :: c :: d :: r =>
      ascii_of_N (octet1 a b) :: ascii_of_N (octet2 b c)
        :: ascii_of_N (octet3 c d) :: decode_sextets r
  | [a; b; c] => [ascii_of_N (octet1 a b); ascii_of_N (octet2 b c)]
  | [a; b] => [ascii_of_N (octet1 a b)]
  | _ => []
  end.

(** [atob(data)], the forgiving base64 decoder of the platform: whitespace is
    removed, padding is removed when the length is a multiple of four, a
    length of 1 modulo 4 or a character outside the alphabet fails.  [None]
    stands for the exception [InvalidCharacterError]; the result is a binary
    string, one character per byte. *)
Definition atob (data : string) : option string :=
  let data :=
    List.filter (fun c => negb (is_ascii_whitespace c))
                (list_ascii_of_string data) in
  let data :=
    if (length data mod 4 =? 0)%nat then strip_padding data else data in
  if (length data mod 4 =? 1)%nat then None
  else string_of_list_ascii ∘ decode_sextets <$> mapM b64_index data.

(** [bstr.charCodeAt(n)]; outside the string the result is [NaN], which a
    typed array stores as 0. *)
Definition charCodeAt (s : string) (n : nat) : N :=
  match String.get n s with
  | Some c => N_of_ascii c
  | None => 0%N
  end.

(** Storing a number into a [Uint8Array] keeps its low eight bits. *)
Definition to_uint8 (n : N) : byte := byte_of_ascii (ascii_of_N n).

End Js.

(** ** Values of the program *)

(** A [Blob]: immutable bytes with a media type. *)
Record Blob := { blob_bytes : list byte; blob_type : string }.

(** A [File] is a [Blob] with a name; [value instanceof Blob] holds for it. *)
Record File := { file_blob : Blob; file_name : string }.

(** What a [FormData] entry holds: a string or a [File]. *)
Inductive FormDataEntryValue :=
| EntryString (s : string)
| EntryFile (f : File).

(** The property [_arcMeta] that the program hangs on a [FormData]:
    [{textParts: [...]}], or an object without [textParts]. *)
Record ArcMeta_ (V : Type) := { textParts : option (list V) }.
Arguments textParts {V} _.

(** A [FormData]: its entries in insertion order (names may repeat), whether
    the implementation has [entries()], and the [_arcMeta] property when one
    was set. *)
Record FormData_ (V : Type) := {
  fd_entries : list (string * FormDataEntryValue);
  fd_has_entries : bool;
  _arcMeta : option (ArcMeta_ V)
}.
Arguments fd_entries {V} _.
Arguments fd_has_entries {V} _.
Arguments _arcMeta {V} _.

(** [Number.MAX_SAFE_INTEGER], 2^53 - 1. *)
Definition MAX_SAFE_INTEGER : Z := 9007199254740991.

(** The numbers of the model are the safe integers: each is a number of the
    platform, and each prints in plain decimal.  Fractions, [NaN], the
    infinities and the numbers beyond 2^53 are outside the model. *)
Record SafeInteger := {
  int_value : Z;
  int_safe : Is_true (Z.abs int_value <=? MAX_SAFE_INTEGER)%Z
}.

(** JavaScript values.  [VNum] holds the safe integers; [VObj] is a plain
    object, [VArr] an array without holes. *)
Inductive Value :=
| VUndefined
| VNull
| VBool (b : bool)
| VNum (n : SafeInteger)
| VStr (s : string)
| VBlob (b : Blob)
| VFormData (fd : FormData_ Value)
| VArr (l : list Value)
| VObj (o : gmap string Value).

Abbreviation ArcMeta := (ArcMeta_ Value).
Abbreviation FormData := (FormData_ Value).
Abbreviation Obj := (gmap string Value).

(** ** Exceptions *)

Inductive Error :=
| TypeError
| InvalidCharacterError
| Error_ (message : string).

(** The outcome of a synchronous call: a value, or a thrown exception. *)
Inductive Completion (A : Type) :=
| Normal (a : A)
| Throw (e : Error).
Arguments Normal {A} a.
Arguments Throw {A} e.

#[global] Instance Completion_ret : MRet Completion := @Normal.
#[global] Instance Completion_bind : MBind Completion := fun A B f c =>
  match c with
  | Normal a => f a
  | Throw e => Throw e
  end.

#[global] Instance Completion_fmap : FMap Completion := fun A B f c =>
  match c with
  | Normal a => Normal (f a)
  | Throw e => Throw e
  end.

Definition throws {A} (c : Completion A) : Prop :=
  match c with Normal _ => False | Throw _ => True end.

(** ** Promises and the FileReader *)

(** How a read of a [FileReader] ends: [loadend] with the result, or [error]
    (followed by a [loadend] whose result is [null]). *)
Inductive FileReaderEvent :=
| onloadend (result : string)
| onerror.

(** A promise is settled, or waits for the one read it has started; what it
    does next depends on how that read ends. *)
Inductive Promise (A : Type) :=
| Resolved (a : A)
| Rejected (e : Error)
| Reading (blob : Blob) (k : FileReaderEvent → Promise A).
Arguments Resolved {A} a.
Arguments Rejected {A} e.
Arguments Reading {A} blob k.

(** [p.then(f)] *)
Fixpoint then_ {A B} (p : Promise A) (f : A → Promise B) : Promise B :=
  match p with
  | Resolved a => f a
  | Rejected e => Rejected e
  | Reading blob k => Reading blob (fun ev => then_ (k ev) f)
  end.

(** The platform answers each read.  [settle] runs a promise to its end
    against a reader and returns the blobs it read, in the order the reads
    were started, with the outcome. *)
Fixpoint settle {A} (reader : Blob → FileReaderEvent) (p : Promise A)
  : list Blob * Completion A :=
  match p with
  | Resolved a => ([], Normal a)
  | Rejected e => ([], Throw e)
  | Reading blob k =>
      let (reads, r) := settle reader (k (reader blob)) in
      (blob :: reads, r)
  end.

(** The media type that the platform writes into the data URL of a blob: the
    type of the blob, and [application/octet-stream] for a blob without a
    type. *)
Definition data_url_type (type : string) : string :=
  if String.eqb type EmptyString then "application/octet-stream" else type.

(** Modelled from the spec: [FileReader.readAsDataURL] is the platform's, not
    the repository's.  The result is
    [data:<media-type>;base64,<standard-base64-payload>], with the standard
    alphabet and [=] padding; the media type is that of [data_url_type]. *)
Definition readAsDataURL (blob : Blob) : string :=
  "data:" +:+ data_url_type (blob_type blob) +:+ ";base64,"
    +:+ string_of_list_ascii (Js.b64_encode (blob_bytes blob)).

(** The reader of a platform whose reads succeed. *)
Definition platform (blob : Blob) : FileReaderEvent :=
  onloadend (readAsDataURL blob).

(** ** Platform: Blob, FormData, property access *)

(** The characters U+0020 to U+007E. *)
Definition is_printable (c : ascii) : bool :=
  let n := N_of_ascii c in (32 <=? n)%N && (n <=? 126)%N.

(** ASCII lower case. *)
Definition to_lower (c : ascii) : ascii :=
  let n := N_of_ascii c in
  if (65 <=? n)%N && (n <=? 90)%N then ascii_of_N (n + 32) else c.

(** The type that the [Blob] constructor keeps: one with a character outside
    U+0020 to U+007E becomes the empty string, any other is put in lower
    case. *)
Definition normalize_type (type : string) : string :=
  let t := list_ascii_of_string type in
  if forallb is_printable t then string_of_list_ascii (to_lower <$> t)
  else EmptyString.

(** [new Blob([u8arr], {type})] *)
Definition new_Blob (u8arr : list byte) (type : string) : Blob :=
  {| blob_bytes := u8arr; blob_type := normalize_type type |}.

(** [new FormData()] *)
Definition new_FormData : FormData :=
  {| fd_entries := []; fd_has_entries := true; _arcMeta := None |}.

(** Truthiness. *)
Definition truthy (v : Value) : bool :=
  match v with
  | VUndefined | VNull => false
  | VBool b => b
  | VNum n => negb (int_value n =? 0)%Z
  | VStr s => negb (String.eqb s EmptyString)
  | VBlob _ | VFormData _ | VArr _ | VObj _ => true
  end.

(** The [length] of an array or of a string as a number.  No array or string
    of the platform is longer than a safe integer; a longer list of the model
    reads as the largest one. *)
Definition length_number (n : nat) : SafeInteger.
Proof.
  refine {| int_value := Z.min (Z.of_nat n) MAX_SAFE_INTEGER |}.
  apply Is_true_eq_left, Z.leb_le. unfold MAX_SAFE_INTEGER. lia.
Defined.

(** [o.k] on a plain object: a missing key reads as [undefined]. *)
Definition get (o : Obj) (k : string) : Value := default VUndefined (o !! k).

(** [v.k] on any value, for the keys the program reads ([length], [name],
    [value], [isFile], [isTextBlob]): [null] and [undefined] throw, an array
    and a string have a [length], anything else but an object has none of
    them. *)
Definition prop (v : Value) (k : string) : Completion Value :=
  match v with
  | VUndefined | VNull => Throw TypeError
  | VObj o => Normal (get o k)
  | VArr l =>
      Normal (if String.eqb k "length" then VNum (length_number (length l))
              else VUndefined)
  | VStr s =>
      Normal (if String.eqb k "length"
              then VNum (length_number (String.length s))
              else VUndefined)
  | VBool _ | VNum _ | VBlob _ | VFormData _ => Normal VUndefined
  end.

(** [Array.prototype.join(",")] on strings. *)
Fixpoint join_comma (l : list string) : string :=
  match l with
  | [] => EmptyString
  | [s] => s
  | s :: r => s +:+ "," +:+ join_comma r
  end.

(** The conversion of a value to a string, as [FormData.append] applies it to
    a name and to a value that is not a [Blob].  A safe integer prints in
    plain decimal. *)
Fixpoint ToString (v : Value) : string :=
  match v with
  | VUndefined => "undefined"
  | VNull => "null"
  | VBool true => "true"
  | VBool false => "false"
  | VNum n => DecimalString.NilZero.string_of_int (Z.to_int (int_value n))
  | VStr s => s
  | VBlob _ => "[object Blob]"
  | VFormData _ => "[object FormData]"
  | VArr l =>
      join_comma
        ((fix elements (l : list Value) : list string :=
            match l with
            | [] => []
            | (VUndefined | VNull) :: r => EmptyString :: elements r
            | x :: r => ToString x :: elements r
            end) l)
  | VObj _ => "[object Object]"
  end.

(** The entry that [fd.append(name, value)] creates: a [Blob] is stored as a
    [File] named [blob], anything else as its string. *)
Definition form_entry (name value : Value) : string * FormDataEntryValue :=
  (ToString name,
   match value with
   | VBlob b => EntryFile {| file_blob := b; file_name := "blob" |}
   | _ => EntryString (ToString value)
   end).

(** [fd.append(name, value)] *)
Definition append (fd : FormData) (name value : Value) : FormData :=
  {| fd_entries := fd_entries fd ++ [form_entry name value];
     fd_has_entries := fd_has_entries fd;
     _arcMeta := _arcMeta fd |}.

(** [textParts.indexOf(name)] for a string [name]: the first index whose
    element is strictly equal to it, -1 when there is none. *)
Fixpoint indexOf (l : list Value) (name : string) : Z :=
  match l with
  | [] => -1
  | v :: r =>
      match v with
      | VStr s => if String.eqb s name then 0 else
                    let i := indexOf r name in if (i =? -1)%Z then -1 else i + 1
      | _ => let i := indexOf r name in if (i =? -1)%Z then -1 else i + 1
      end
  end%Z.

(** [try { c } catch (e) { h e }] *)
Definition try_catch {A} (c : Completion A) (h : Error → Completion A)
  : Completion A :=
  match c with
  | Normal a => Normal a
  | Throw e => h e
  end.

(** A line of [console.warn]: the message and the exception passed to it. *)
Record Warning := { warn_message : string; warn_error : Error }.

(** ** The class [PayloadProcessor] *)

Module PayloadProcessor.

(** [_blobToString(blob)]: a promise that starts one read of the blob;
    [onloadend] resolves it with the reader's result, [onerror] rejects it
    (the [loadend] that follows an error finds the promise settled). *)
Definition _blobToString (blob : Blob) : Promise string :=
  Reading blob (fun e =>
    match e with
    | onloadend result => Resolved result
    | onerror => Rejected (Error_ "Unable to convert blob to string.")
    end).

(** [_computeFormDataEntry(iterator, textParts, result)].  The iterator is
    the list of the entries it has yet to yield: [iterator.next()] takes the
    head, and the recursive call receives the rest.  [result] is [None] when
    the argument is not passed; [result.push(part)] is the list with [part]
    at its end. *)
Fixpoint _computeFormDataEntry
    (iterator : list (string * FormDataEntryValue))
    (textParts : option (list Value)) (result : option (list Value))
  : Promise (list Value) :=
  let result := default [] result in
  match iterator with
  | [] => Resolved result
  | (name, value) :: iterator =>
      let '(promise, isBlob, isTextBlob) :=
        match value with
        | EntryFile f =>
            let promise := _blobToString (file_blob f) in
            match textParts with
            | Some textParts =>
                if negb (indexOf textParts name =? -1)%Z
                then (promise, false, true)
                else (promise, true, false)
            | None => (promise, true, false)
            end
        | EntryString s => (Resolved s, false, false)
        end in
      then_
        (then_ promise (fun str =>
           let _part : Obj :=
             {[ "name" := VStr name; "value" := VStr str;
                "isFile" := VBool isBlob ]} in
           let _part :=
             if isTextBlob then <["isTextBlob" := VBool isTextBlob]> _part
             else _part in
           Resolved _part))
        (fun part =>
           _computeFormDataEntry iterator textParts
             (Some (result ++ [VObj part])))
  end.

(** [_createMultipartEntry(payload)].  On a [FormData] without [entries()] the
    call [payload.entries()] throws before any promise exists. *)
Definition _createMultipartEntry (payload : FormData)
  : Completion (Promise (list Value)) :=
  if fd_has_entries payload then
    let iterator := fd_entries payload in
    let textParts :=
      match _arcMeta payload with
      | Some meta => textParts meta
      | None => None
      end in
    Normal (_computeFormDataEntry iterator textParts None)
  else Throw TypeError.

(** The loop [while (n--) { u8arr[n] = bstr.charCodeAt(n); }] *)
Fixpoint fill_u8arr (bstr : string) (n : nat) (u8arr : list byte)
  : list byte :=
  match n with
  | O => u8arr
  | S n => fill_u8arr bstr n (<[n := Js.to_uint8 (Js.charCodeAt bstr n)]> u8arr)
  end.

(** [_dataURLtoBlob(dataurl)].  A value that is not a string has no [split];
    [null[1]] throws a [TypeError]; [atob(arr[1])] converts a missing
    [arr[1]] to the string [undefined]. *)
Definition _dataURLtoBlob (dataurl : Value) : Completion Blob :=
  match dataurl with
  | VStr dataurl =>
      let arr := Js.split "," dataurl in
      match Js.match_colon_group_semicolon (List.nth 0 arr EmptyString) with
      | None => Throw TypeError
      | Some mime =>
          match Js.atob (List.nth 1 arr "undefined") with
          | None => Throw InvalidCharacterError
          | Some bstr =>
              let n := String.length bstr in
              let u8arr := fill_u8arr bstr n (replicate n "000"%byte) in
              Normal (new_Blob u8arr mime)
          end
      end
  | _ => Throw TypeError
  end.

(** The callback of [model.forEach] in [restoreMultipart]; it appends to
    [fd] and pushes to [fd._arcMeta.textParts], so the container goes in and
    comes out. *)
Definition restorePart (fd : FormData) (part : Value) : Completion FormData :=
  name ← prop part "name";
  isFile ← prop part "isFile";
  if truthy isFile then
    v ← prop part "value";
    value ← try_catch (VBlob <$> _dataURLtoBlob v)
                      (fun _ => Normal (VStr EmptyString));
    Normal (append fd name value)
  else
    value ← prop part "value";
    isTextBlob ← prop part "isTextBlob";
    if truthy isTextBlob then
      let fd :=
        {| fd_entries := fd_entries fd;
           fd_has_entries := fd_has_entries fd;
           _arcMeta :=
             (fun meta : ArcMeta =>
                {| textParts := (λ l, l ++ [name]) <$> textParts meta |})
               <$> _arcMeta fd |} in
      value ← try_catch (VBlob <$> _dataURLtoBlob value)
                        (fun _ => Normal (VStr EmptyString));
      Normal (append fd name value)
    else Normal (append fd name value).

(** [model.forEach(callback)] on the elements of an array. *)
Fixpoint forEach (parts : list Value) (fd : FormData) : Completion FormData :=
  match parts with
  | [] => Normal fd
  | part :: parts => fd ← restorePart fd part; forEach parts fd
  end.

(** [restoreMultipart(model)] *)
Definition restoreMultipart (model : Value) : Completion FormData :=
  let fd := new_FormData in
  if negb (truthy model) then Normal fd
  else
    len ← prop model "length";
    if negb (truthy len) then Normal fd
    else
      let fd :=
        {| fd_entries := fd_entries fd;
           fd_has_entries := fd_has_entries fd;
           _arcMeta := Some {| textParts := Some [] |} |} in
      match model with
      | VArr parts => forEach parts fd
      | _ => Throw TypeError
      end.

(** [restorePayload(request)].  The request is changed in place and returned;
    the model returns the changed request with what [console.warn] wrote. *)
Definition restorePayload (request : Obj) : list Warning * Obj :=
  if truthy (get request "multipart") then
    let '(log, request) :=
      match restoreMultipart (get request "multipart") with
      | Normal fd => ([], <["payload" := VFormData fd]> request)
      | Throw e =>
          ([{| warn_message := "Unable to restore payload.";
               warn_error := e |}], request)
      end in
    (log, delete "multipart" request)
  else if truthy (get request "blob") then
    let '(log, request) :=
      match _dataURLtoBlob (get request "blob") with
      | Normal b => ([], <["payload" := VBlob b]> request)
      | Throw e =>
          ([{| warn_message := "Unable to restore payload.";
               warn_error := e |}], request)
      end in
    (log, delete "blob" request)
  else ([], request).

(** [payloadToString(request)].  [Object.assign({}, request)] is a copy of
    the request; [data.payload = undefined] keeps the key.  The call of
    [_createMultipartEntry] is behind the test of [entries], so it does not
    throw there. *)
Definition payloadToString (request : Obj) : Promise Obj :=
  if negb (truthy (get request "payload")) then Resolved request
  else
    match get request "payload" with
    | VFormData payload =>
        let data := request in
        if negb (fd_has_entries payload) then
          Resolved (<["payload" := VUndefined]> data)
        else
          match _createMultipartEntry payload with
          | Normal p =>
              then_ p (fun entry =>
                Resolved (<["multipart" := VArr entry]>
                            (<["payload" := VUndefined]> data)))
          | Throw e => Rejected e
          end
    | VBlob payload =>
        let data := request in
        then_ (_blobToString payload) (fun str =>
          Resolved (<["blob" := VStr str]>
                      (<["payload" := VUndefined]> data)))
    | _ => Resolved request
    end.

End PayloadProcessor.

(** ** Vocabulary of the properties *)

(** Whether a character occurs in a string. *)
Fixpoint contains (c : ascii) (s : string) : bool :=
  match s with
  | EmptyString => false
  | String d r => Ascii.eqb d c || contains c r
  end.

(** The sextets of a byte sequence, without padding. *)
Fixpoint b64_sextets (l : list byte) : list N :=
  match l with
  | x :: y :: z :: r =>
      let x := Byte.to_N x in
      let y := Byte.to_N y in
      let z := Byte.to_N z in
      Js.sextet1 x :: Js.sextet2 x y :: Js.sextet3 y z :: Js.sextet4 z
        :: b64_sextets r
  | [x; y] =>
      let x := Byte.to_N x in
      let y := Byte.to_N y in
      [Js.sextet1 x; Js.sextet2 x y; Js.sextet3 y 0]
  | [x] => let x := Byte.to_N x in [Js.sextet1 x; Js.sextet2 x 0]
  | [] => []
  end.

(** No character of the string is a line terminator. *)
Definition no_line_terminator (s : string) : bool :=
  forallb (λ c, negb (Js.is_line_terminator c)) (list_ascii_of_string s).

(** The shape of a data URL in the words of the specification:
    [data:<media-type>;base64,<payload>] with a payload that is valid
    base64. *)
Definition data_url_shape (s : string) : Prop :=
  ∃ mediaType payload,
    s = "data:" +:+ mediaType +:+ ";base64," +:+ payload
    ∧ is_Some (Js.atob payload).

(** What the code looks for before the first comma: a [:] and, later on the
    same line, a [;]. *)
Definition colon_then_semicolon (head : string) : Prop :=
  ∃ a g r,
    head = a +:+ String ":" (g +:+ String ";" r)
    ∧ no_line_terminator g = true.

(** Sample data of the test suite: the bytes of [***]. *)
Definition stars : list byte := ["*"%byte; "*"%byte; "*"%byte].

(** The blob [***] of type [text/plain]. *)
Definition stars_blob : Blob :=
  {| blob_bytes := stars; blob_type := "text/plain" |}.

(** Whether a field name is in the text-parts list of the container. *)
Definition isMarkedTextBlob (textParts : option (list Value)) (name : string)
  : bool :=
  match textParts with
  | Some textParts => negb (indexOf textParts name =? -1)%Z
  | None => false
  end.

(** The text-parts list that [_createMultipartEntry] reads off a container. *)
Definition textParts_of (meta : option ArcMeta) : option (list Value) :=
  match meta with
  | Some meta => textParts meta
  | None => None
  end.

(** The record of a string field. *)
Definition string_record (name s : string) : Value :=
  VObj {[ "name" := VStr name; "value" := VStr s; "isFile" := VBool false ]}.

(** The record of a file field whose read has ended with the result [url]. *)
Definition file_record (textParts : option (list Value)) (name url : string)
  : Value :=
  if isMarkedTextBlob textParts name then
    VObj (<["isTextBlob" := VBool true]>
            {[ "name" := VStr name; "value" := VStr url;
               "isFile" := VBool false ]})
  else
    VObj {[ "name" := VStr name; "value" := VStr url;
            "isFile" := VBool true ]}.

(** The record that stands for one field once the platform's reader has
    read it. *)
Definition part_record (textParts : option (list Value))
    (entry : string * FormDataEntryValue) : Value :=
  let (name, value) := entry in
  match value with
  | EntryString s => string_record name s
  | EntryFile f => file_record textParts name (readAsDataURL (file_blob f))
  end.

(** The blobs behind the fields of a container, in the order of the fields. *)
Fixpoint blobs_of (entries : list (string * FormDataEntryValue)) : list Blob :=
  match entries with
  | [] => []
  | (_, EntryFile f) :: r => file_blob f :: blobs_of r
  | (_, EntryString _) :: r => blobs_of r
  end.

(** The file record in the words of the specification:
    [{ name, value, isFile: true, fileName }]. *)
Definition spec_file_record (name value fileName : string) : Obj :=
  {[ "name" := VStr name; "value" := VStr value; "isFile" := VBool true;
     "fileName" := VStr fileName ]}.

(** The text-blob record in the words of the specification:
    [{ name, value, isFile: false, type }]. *)
Definition spec_text_blob_record (name value type : string) : Obj :=
  {[ "name" := VStr name; "value" := VStr value; "isFile" := VBool false;
     "type" := VStr type ]}.

(** A record that [restoreMultipart] treats as a text blob: [isFile] is
    falsy and [isTextBlob] is truthy. *)
Definition text_blob_marked (part : Obj) : bool :=
  negb (truthy (get part "isFile")) && truthy (get part "isTextBlob").

(** A record whose value [restoreMultipart] decodes as a data URL. *)
Definition binary_marked (part : Obj) : bool :=
  truthy (get part "isFile") || truthy (get part "isTextBlob").

(** The value that [restoreMultipart] appends for a record: the decoded blob
    of a binary-marked record, the empty string when that decoding throws,
    the stored value otherwise. *)
Definition restored_value (part : Obj) : Value :=
  if binary_marked part then
    match PayloadProcessor._dataURLtoBlob (get part "value") with
    | Normal b => VBlob b
    | Throw _ => VStr EmptyString
    end
  else get part "value".

(** The text-parts list of a restored container; a container without
    [_arcMeta] has none. *)
Definition side_channel (fd : FormData) : list Value :=
  default [] (textParts_of (_arcMeta fd)).

(** The container of the test suite: a file, a text field and a text blob. *)
Definition test_form : FormData :=
  {| fd_entries :=
       [("file", EntryFile {| file_blob := stars_blob;
                              file_name := "file-name" |});
        ("text", EntryString "abcd");
        ("text-part", EntryFile {| file_blob := stars_blob;
                                   file_name := "text-part" |})];
     fd_has_entries := true;
     _arcMeta := Some {| textParts := Some [VStr "text-part"] |} |}.

(** A request of the test suite, without a payload. *)
Definition init_request : Obj :=
  {[ "url" := VStr "https://domain.com"; "method" := VStr "POST" ]}.

(** The line that [restorePayload] writes when a decoding throws. *)
Definition unable_to_restore (e : Error) : Warning :=
  {| warn_message := "Unable to restore payload."; warn_error := e |}.

(** Records of the test suite. *)
Definition text_blob_model : Obj :=
  {[ "isFile" := VBool false; "isTextBlob" := VBool true;
     "name" := VStr "test-name";
     "value" := VStr "data:text/plain;base64,Kioq" ]}.

Definition broken_file_model : Obj :=
  {[ "isFile" := VBool true; "name" := VStr "f";
     "value" := VStr "not-a-data-url" ]}.

Definition empty_text_model : Obj :=
  {[ "isFile" := VBool false; "name" := VStr "f";
     "value" := VStr EmptyString ]}.

Definition text_model : Obj :=
  {[ "isFile" := VBool false; "name" := VStr "test-name";
     "value" := VStr "test-value" ]}.

(** A request that has both storable fields. *)
Definition both_request : Obj :=
  <["multipart" := VArr (VObj <$> [text_model])]>
    (<["blob" := VStr "data:text/plain;base64,Kioq"]> init_request).

(** ** Vocabulary of the further properties *)

(** Whether a read ends with [loadend]. *)
Definition loads (reader : Blob → FileReaderEvent) (blob : Blob) : bool :=
  match reader blob with
  | onloadend _ => true
  | onerror => false
  end.

(** The result of a read that ended with [loadend]. *)
Definition read_result (reader : Blob → FileReaderEvent) (blob : Blob)
  : string :=
  match reader blob with
  | onloadend result => result
  | onerror => EmptyString
  end.

(** The blobs of a list up to and with the first whose read fails. *)
Fixpoint reads_until_error (reader : Blob → FileReaderEvent)
    (blobs : list Blob) : list Blob :=
  match blobs with
  | [] => []
  | blob :: blobs =>
      if loads reader blob then blob :: reads_until_error reader blobs
      else [blob]
  end.

(** The record of a field with the result that a given reader has for its
    blob. *)
Definition part_record_with (reader : Blob → FileReaderEvent)
    (textParts : option (list Value))
    (entry : string * FormDataEntryValue) : Value :=
  let (name, value) := entry in
  match value with
  | EntryString s => string_record name s
  | EntryFile f =>
      file_record textParts name (read_result reader (file_blob f))
  end.

(** The exception of a failed read. *)
Definition read_error : Error := Error_ "Unable to convert blob to string.".

(** A media type without parameters: the [Blob] constructor keeps it as it
    is, and it has no [;] and no [,].  The empty type is one. *)
Definition bare_type (type : string) : bool :=
  String.eqb (normalize_type type) type
  && negb (contains ";" type) && negb (contains "," type).

(** What the round trip through a data URL makes of a blob whose type is
    bare: the same bytes with the type that the data URL carries, which is
    the type of the blob, or [application/octet-stream] when the blob has
    none.  (A type with a parameter comes back cut at its first [;]; such a
    blob is not described by this.) *)
Definition restored_blob (blob : Blob) : Blob :=
  {| blob_bytes := blob_bytes blob;
     blob_type := data_url_type (blob_type blob) |}.

(** What the round trip makes of a field whose blob has a bare type: a
    string as it was, a file with the blob of [restored_blob] and the name
    [blob]. *)
Definition restored_entry (entry : string * FormDataEntryValue)
  : string * FormDataEntryValue :=
  let (name, value) := entry in
  match value with
  | EntryString s => (name, EntryString s)
  | EntryFile f =>
      (name,
       EntryFile {| file_blob := restored_blob (file_blob f);
                    file_name := "blob" |})
  end.

(** The names of the file fields that are in the text-parts list, in the
    order of the fields. *)
Fixpoint marked_names (textParts : option (list Value))
    (entries : list (string * FormDataEntryValue)) : list Value :=
  match entries with
  | [] => []
  | (name, EntryFile _) :: r =>
      if isMarkedTextBlob textParts name
      then VStr name :: marked_names textParts r
      else marked_names textParts r
  | (_, EntryString _) :: r => marked_names textParts r
  end.

(** What the round trip makes of a container whose blobs have bare types:
    the fields of [restored_entry] in their order, and, unless the container
    is empty, a text-parts list with the names of the file fields that were
    in the list of the container. *)
Definition restored_form (fd : FormData) : FormData :=
  {| fd_entries := restored_entry <$> fd_entries fd;
     fd_has_entries := true;
     _arcMeta :=
       match fd_entries fd with
       | [] => None
       | _ :: _ =>
           Some {| textParts :=
                     Some (marked_names (textParts_of (_arcMeta fd))
                             (fd_entries fd)) |}
       end |}.

(** [null] and [undefined]: the values whose properties cannot be read. *)
Definition nullish (v : Value) : bool :=
  match v with
  | VUndefined | VNull => true
  | _ => false
  end.

(** Whether a value is a [Blob] or a [FormData]. *)
Definition is_live_payload (v : Value) : bool :=
  match v with
  | VBlob _ | VFormData _ => true
  | _ => false
  end.

(** A data URL with a comma-separated tail, for the examples. *)
Definition stars_url : string := "data:text/plain;base64,Kioq".

(** The blobs that [payloadToString] has to read for a payload. *)
Definition payload_blobs (payload : Value) : list Blob :=
  match payload with
  | VBlob b => [b]
  | VFormData fd => if fd_has_entries fd then blobs_of (fd_entries fd) else []
  | _ => []
  end.

(** A reader whose reads all fail. *)
Definition failing_reader (blob : Blob) : FileReaderEvent := onerror.

(** Requests of the test suite: a blob payload, and what it is stored as. *)
Definition blob_request : Obj :=
  <["payload" := VBlob stars_blob]> init_request.

Definition stored_blob_request : Obj :=
  <["blob" := VStr stars_url]> (<["payload" := VUndefined]> blob_request).

(** The values on which [restoreMultipart] throws: an array with a [null]
    or [undefined] element, a string that is not empty, an object with a
    truthy [length]. *)
Definition restore_throws (model : Value) : bool :=
  match model with
  | VArr l => existsb nullish l
  | VStr s => negb (String.eqb s EmptyString)
  | VObj o => truthy (get o "length")
  | _ => false
  end.

(** The object of a record. *)
Definition obj_of (v : Value) : Obj :=
  match v with
  | VObj o => o
  | _ => ∅
  end.

(** Whether a container has a file field of a given name. *)
Definition has_file_field (name : string)
    (entries : list (string * FormDataEntryValue)) : bool :=
  existsb (λ entry,
             match entry with
             | (n, EntryFile _) => String.eqb n name
             | (_, EntryString _) => false
             end) entries.

(** Whether every blob of a container has a bare type. *)
Definition bare_blobs (entries : list (string * FormDataEntryValue)) : bool :=
  forallb (λ blob, bare_type (blob_type blob)) (blobs_of entries).

(** A request with the container of the test suite as its payload. *)
Definition form_request : Obj :=
  <["payload" := VFormData test_form]> init_request.

(** [new Blob(['***'])]: a blob without a type. *)
Definition untyped_blob : Blob :=
  {| blob_bytes := stars; blob_type := EmptyString |}.

(** A container whose text blob has no type. *)
Definition untyped_form : FormData :=
  {| fd_entries :=
       [("file", EntryFile {| file_blob := stars_blob;
                              file_name := "file-name" |});
        ("text", EntryString "abcd");
        ("text-part", EntryFile {| file_blob := untyped_blob;
                                   file_name := "text-part" |})];
     fd_has_entries := true;
     _arcMeta := Some {| textParts := Some [VStr "text-part"] |} |}.

(** A request with a blob without a type as its payload. *)
Definition untyped_blob_request : Obj :=
  <["payload" := VBlob untyped_blob]> init_request.

(** * Properties *)

(** ** base64: the decoder inverts the encoder *)

Module Base64Facts.
Import Js.

(** Induction on a list three elements at a time. *)
Lemma list_ind_by_three {A} (P : list A → Prop) :
  P [] → (∀ x, P [x]) → (∀ x y, P [x; y]) →
  (∀ x y z r, P r → P (x :: y :: z :: r)) → ∀ l, P l.
Proof.
  intros H0 H1 H2 H3 l.
  cut (P l ∧ (∀ x, P (x :: l)) ∧ (∀ x y, P (x :: y :: l))); [tauto|].
  induction l as [|a l (IH0 & IH1 & IH2)]; [auto|].
  split; [apply IH1|]. split; [intro; apply IH2|].
  intros x y. apply H3, IH0.
Qed.

Lemma byte_lt_256 (x : byte) : (Byte.to_N x < 256)%N.
Proof. pose proof (Byte.to_N_bounded x). lia. Qed.

Lemma sextets_octets (x y z : N) :
  (x < 256 → y < 256 → z < 256 →
   octet1 (sextet1 x) (sextet2 x y) = x
   ∧ octet2 (sextet2 x y) (sextet3 y z) = y
   ∧ octet3 (sextet3 y z) (sextet4 z) = z)%N.
Proof.
  unfold octet1, octet2, octet3, sextet1, sextet2, sextet3, sextet4.
  intros. repeat split; zify; Z.to_euclidean_division_equations; lia.
Qed.

Lemma sextets_lt_64 (x y z : N) :
  (x < 256 → y < 256 → z < 256 →
   sextet1 x < 64 ∧ sextet2 x y < 64
   ∧ sextet3 y z < 64 ∧ sextet4 z < 64)%N.
Proof.
  unfold sextet1, sextet2, sextet3, sextet4.
  intros. repeat split; zify; Z.to_euclidean_division_equations; lia.
Qed.

(** A character of the alphabet decodes to its value; it is not whitespace,
    not the padding character and not a comma. *)
Lemma b64_char_spec (n : N) :
  (n < 64)%N →
  b64_index (b64_char n) = Some n
  ∧ is_ascii_whitespace (b64_char n) = false
  ∧ Ascii.eqb (b64_char n) "=" = false
  ∧ Ascii.eqb (b64_char n) "," = false.
Proof.
  intros H. destruct n as [|p]; [vm_compute; auto|].
  do 6 (try destruct p as [p|p|]); try lia; vm_compute; auto.
Qed.

Lemma b64_sextets_lt_64 (l : list byte) :
  Forall (λ n, (n < 64)%N) (b64_sextets l).
Proof.
  induction l as [|x|x y|x y z r IH] using list_ind_by_three; cbn.
  - constructor.
  - destruct (sextets_lt_64 _ 0 0 (byte_lt_256 x) eq_refl eq_refl)
      as (? & ? & _).
    repeat constructor; auto.
  - destruct (sextets_lt_64 _ _ 0 (byte_lt_256 x) (byte_lt_256 y) eq_refl)
      as (? & ? & ? & _).
    repeat constructor; auto.
  - destruct (sextets_lt_64 _ _ _ (byte_lt_256 x) (byte_lt_256 y)
                (byte_lt_256 z))
      as (? & ? & ? & ?). repeat constructor; auto.
Qed.

Lemma strip_padding_cons (c : ascii) (l : list ascii) :
  (2 ≤ length l)%nat → strip_padding (c :: l) = c :: strip_padding l.
Proof. destruct l as [|? [|? ?]]; cbn; [lia | lia | reflexivity]. Qed.

Lemma b64_encode_length (l : list byte) :
  ∃ k, length (b64_encode l) = 4 * k.
Proof.
  induction l as [|x|x y|x y z r [k IH]] using list_ind_by_three.
  - by exists 0.
  - by exists 1.
  - by exists 1.
  - exists (S k). cbn [b64_encode length]. rewrite IH. lia.
Qed.

Lemma b64_sextets_length (l : list byte) :
  length (b64_sextets l) mod 4 ≠ 1.
Proof.
  induction l as [|x|x y|x y z r IH] using list_ind_by_three;
    [by cbn..|].
  cbn [b64_sextets length].
  replace (S (S (S (S (length (b64_sextets r))))))
    with (length (b64_sextets r) + 1 * 4) by lia.
  by rewrite Nat.Div0.mod_add.
Qed.

(** Without its padding the encoding is the characters of the sextets. *)
Lemma strip_padding_b64_encode (l : list byte) :
  strip_padding (b64_encode l) = b64_char <$> b64_sextets l.
Proof.
  induction l as [|x|x y|x y z r IH] using list_ind_by_three.
  - reflexivity.
  - reflexivity.
  - cbn [b64_encode b64_sextets fmap list_fmap].
    destruct (sextets_lt_64 _ _ 0 (byte_lt_256 x) (byte_lt_256 y) eq_refl)
      as (_ & _ & H3 & _).
    apply b64_char_spec in H3 as (_ & _ & H3 & _).
    cbn. by rewrite H3.
  - cbn [b64_encode b64_sextets fmap list_fmap].
    destruct (sextets_lt_64 _ _ _ (byte_lt_256 x) (byte_lt_256 y)
                (byte_lt_256 z))
      as (_ & _ & _ & H4).
    apply b64_char_spec in H4 as (_ & _ & H4 & _).
    rewrite !strip_padding_cons by (cbn; lia).
    destruct (b64_encode_length r) as [k Hk].
    destruct k as [|k].
    + destruct (b64_encode r); [|discriminate]. cbn in IH. rewrite <- IH.
      cbn. by rewrite H4.
    + rewrite !strip_padding_cons by (cbn; lia). by rewrite IH.
Qed.

Lemma filter_whitespace_b64_encode (l : list byte) :
  List.filter (λ c, negb (is_ascii_whitespace c)) (b64_encode l)
  = b64_encode l.
Proof.
  assert (Hc : ∀ n, (n < 64)%N →
               negb (is_ascii_whitespace (b64_char n)) = true).
  { intros n Hn. apply b64_char_spec in Hn as (_ & -> & _). done. }
  induction l as [|x|x y|x y z r IH] using list_ind_by_three.
  - reflexivity.
  - destruct (sextets_lt_64 _ 0 0 (byte_lt_256 x) eq_refl eq_refl)
      as (? & ? & _).
    cbn. rewrite !Hc by done. reflexivity.
  - destruct (sextets_lt_64 _ _ 0 (byte_lt_256 x) (byte_lt_256 y) eq_refl)
      as (? & ? & ? & _).
    cbn. rewrite !Hc by done. reflexivity.
  - destruct (sextets_lt_64 _ _ _ (byte_lt_256 x) (byte_lt_256 y)
                (byte_lt_256 z))
      as (? & ? & ? & ?).
    cbn. rewrite !Hc by done. cbn in IH. by rewrite IH.
Qed.

Lemma mapM_b64_index (s : list N) :
  Forall (λ n, (n < 64)%N) s → mapM b64_index (b64_char <$> s) = Some s.
Proof.
  induction 1 as [|n s Hn _ IH]; [done|].
  cbn. apply b64_char_spec in Hn as (-> & _). cbn. by rewrite IH.
Qed.

Lemma ascii_of_to_N (x : byte) : ascii_of_N (Byte.to_N x) = ascii_of_byte x.
Proof. symmetry. apply ascii_of_byte_via_N. Qed.

Lemma decode_b64_sextets (l : list byte) :
  decode_sextets (b64_sextets l) = ascii_of_byte <$> l.
Proof.
  induction l as [|x|x y|x y z r IH] using list_ind_by_three.
  - reflexivity.
  - destruct (sextets_octets _ 0 0 (byte_lt_256 x) eq_refl eq_refl) as (H1 & _).
    cbn. by rewrite H1, ascii_of_to_N.
  - destruct (sextets_octets _ _ 0 (byte_lt_256 x) (byte_lt_256 y) eq_refl)
      as (H1 & H2 & _).
    cbn. by rewrite H1, H2, !ascii_of_to_N.
  - destruct (sextets_octets _ _ _ (byte_lt_256 x) (byte_lt_256 y)
                (byte_lt_256 z))
      as (H1 & H2 & H3).
    cbn [b64_sextets decode_sextets fmap list_fmap].
    by rewrite H1, H2, H3, !ascii_of_to_N, IH.
Qed.

(** [atob] gives back the bytes of what the standard encoder produced. *)
Lemma atob_b64_encode (l : list byte) :
  atob (string_of_list_ascii (b64_encode l))
  = Some (string_of_list_ascii (ascii_of_byte <$> l)).
Proof.
  unfold atob.
  rewrite list_ascii_of_string_of_list_ascii, filter_whitespace_b64_encode.
  destruct (b64_encode_length l) as [k Hk].
  replace (length (b64_encode l) mod 4) with 0
    by (rewrite Hk, Nat.mul_comm; symmetry; apply Nat.Div0.mod_mul).
  cbn [Nat.eqb]. rewrite strip_padding_b64_encode, length_fmap.
  pose proof (b64_sextets_length l) as Hl.
  destruct (Nat.eqb_spec (length (b64_sextets l) mod 4) 1); [done|].
  rewrite mapM_b64_index by apply b64_sextets_lt_64.
  cbn. by rewrite decode_b64_sextets.
Qed.

End Base64Facts.

(** ** Strings *)

Module StringFacts.
Import Js.

Lemma append_nil (b : string) : EmptyString +:+ b = b.
Proof. reflexivity. Qed.

Lemma append_cons (c : ascii) (a b : string) :
  String c a +:+ b = String c (a +:+ b).
Proof. reflexivity. Qed.

Lemma append_assoc (a b c : string) : (a +:+ b) +:+ c = a +:+ (b +:+ c).
Proof.
  induction a as [|x a IH]; [done|]. by rewrite !append_cons, IH.
Qed.

Lemma contains_append (c : ascii) (a b : string) :
  contains c (a +:+ b) = contains c a || contains c b.
Proof.
  induction a as [|x a IH]; [done|].
  rewrite append_cons. simpl. by rewrite IH, orb_assoc.
Qed.

Lemma split_without_sep (sep : ascii) (s : string) :
  contains sep s = false → split sep s = [s].
Proof.
  induction s as [|c s IH]; simpl; [done|].
  intros [Hc Hs]%orb_false_iff. by rewrite Hc, IH.
Qed.

Lemma split_append_sep (sep : ascii) (a b : string) :
  contains sep a = false →
  split sep (a +:+ String sep b) = a :: split sep b.
Proof.
  induction a as [|c a IH]; rewrite ?append_nil, ?append_cons; simpl.
  - intros _. by rewrite Ascii.eqb_refl.
  - intros [Hc Ha]%orb_false_iff. by rewrite Hc, IH.
Qed.

Lemma split_head (sep : ascii) (s : string) :
  ∃ h t, split sep s = h :: t ∧ contains sep h = false.
Proof.
  induction s as [|c s (h & t & IH & Hh)]; simpl.
  - by exists EmptyString, [].
  - destruct (Ascii.eqb c sep) eqn:Hc.
    + by exists EmptyString, (split sep s).
    + rewrite IH. exists (String c h), t. simpl. by rewrite Hc, Hh.
Qed.

Lemma lazy_dots_semicolon_append (m r : string) :
  contains ";" m = false →
  no_line_terminator m = true →
  lazy_dots_semicolon (m +:+ String ";" r) = Some m.
Proof.
  unfold no_line_terminator.
  induction m as [|c m IH]; rewrite ?append_nil, ?append_cons; simpl; [done|].
  intros [Hc Hm]%orb_false_iff [Ht Hl]%andb_true_iff.
  rewrite Hc. apply negb_true_iff in Ht. rewrite Ht, IH by done. done.
Qed.

Lemma get_lookup (s : string) (n : nat) :
  String.get n s = list_ascii_of_string s !! n.
Proof.
  revert n. induction s as [|c s IH]; intros [|n]; cbn; auto.
Qed.

Lemma length_list_ascii (s : string) :
  length (list_ascii_of_string s) = String.length s.
Proof. induction s; cbn; auto. Qed.

Lemma is_printable_spec (c : ascii) :
  is_printable c = true →
  is_printable (to_lower c) = true
  ∧ to_lower (to_lower c) = to_lower c
  ∧ is_line_terminator c = false.
Proof.
  destruct c as [[] [] [] [] [] [] [] []]; vm_compute; auto.
Qed.

Lemma forallb_is_printable (l : list ascii) :
  forallb is_printable l = true →
  forallb is_printable (to_lower <$> l) = true
  ∧ to_lower <$> (to_lower <$> l) = to_lower <$> l
  ∧ forallb (λ c, negb (is_line_terminator c)) l = true.
Proof.
  induction l as [|c l IH]; cbn; [done|].
  intros [Hc Hl]%andb_true_iff.
  destruct (is_printable_spec c Hc) as (-> & -> & ->).
  destruct (IH Hl) as (-> & -> & ->). done.
Qed.

(** The type of a blob is a fixed point of the normalization. *)
Lemma normalize_type_idemp (type : string) :
  normalize_type (normalize_type type) = normalize_type type.
Proof.
  unfold normalize_type.
  destruct (forallb is_printable (list_ascii_of_string type)) eqn:Hp;
    [|done].
  rewrite list_ascii_of_string_of_list_ascii.
  destruct (forallb_is_printable _ Hp) as (-> & -> & _). done.
Qed.

Lemma normalize_type_no_line_terminator (type : string) :
  no_line_terminator (normalize_type type) = true.
Proof.
  unfold no_line_terminator, normalize_type.
  destruct (forallb is_printable (list_ascii_of_string type)) eqn:Hp;
    [|done].
  rewrite list_ascii_of_string_of_list_ascii.
  destruct (forallb_is_printable _ Hp) as (Hq & _ & _).
  by destruct (forallb_is_printable _ Hq) as (_ & _ & ->).
Qed.

End StringFacts.

(** ** The data-URL codec *)

Module CodecFacts.
Import Js PayloadProcessor Base64Facts StringFacts.

Lemma to_uint8_charCodeAt (bstr : string) (n : nat) (c : ascii) :
  list_ascii_of_string bstr !! n = Some c →
  to_uint8 (charCodeAt bstr n) = byte_of_ascii c.
Proof.
  intros H. unfold to_uint8, charCodeAt.
  by rewrite get_lookup, H, ascii_N_embedding.
Qed.

(** The loop fills the array from its end: [n] rounds write the cells below
    [n] and leave the others as they are. *)
Lemma fill_u8arr_take_drop (bstr : string) (n : nat) (u8arr : list byte) :
  (n ≤ String.length bstr)%nat →
  length u8arr = String.length bstr →
  fill_u8arr bstr n u8arr
  = take n (byte_of_ascii <$> list_ascii_of_string bstr) ++ drop n u8arr.
Proof.
  rewrite <- length_list_ascii.
  revert u8arr. induction n as [|n IH]; intros u8arr Hn Hlen; [done|].
  destruct (lookup_lt_is_Some_2 (list_ascii_of_string bstr) n) as [c Hc];
    [lia|].
  cbn [fill_u8arr]. rewrite IH by (rewrite ?length_insert; lia).
  rewrite (to_uint8_charCodeAt _ _ _ Hc).
  rewrite (take_S_r _ _ (byte_of_ascii c))
    by (by rewrite list_lookup_fmap, Hc).
  rewrite <- app_assoc. f_equal.
  rewrite (drop_S (<[n:=byte_of_ascii c]> u8arr) (byte_of_ascii c) n)
    by (apply list_lookup_insert_eq; lia).
  by rewrite drop_insert_lt by lia.
Qed.

(** [_dataURLtoBlob] with its loop read as a map over the binary string. *)
Lemma dataURLtoBlob_unfold (dataurl : string) :
  _dataURLtoBlob (VStr dataurl)
  = match
      match_colon_group_semicolon (List.nth 0 (split "," dataurl) EmptyString)
    with
    | None => Throw TypeError
    | Some mime =>
        match atob (List.nth 1 (split "," dataurl) "undefined") with
        | None => Throw InvalidCharacterError
        | Some bstr =>
            Normal (new_Blob (byte_of_ascii <$> list_ascii_of_string bstr)
                             mime)
        end
    end.
Proof.
  unfold _dataURLtoBlob.
  destruct (match_colon_group_semicolon _) as [mime|]; [|done].
  destruct (atob _) as [bstr|]; [|done].
  rewrite fill_u8arr_take_drop by (rewrite ?length_replicate; lia).
  rewrite <- length_list_ascii at 2.
  rewrite drop_ge by (rewrite length_replicate, length_list_ascii; lia).
  rewrite app_nil_r, take_ge by (rewrite length_fmap, length_list_ascii; lia).
  done.
Qed.

Lemma contains_comma_b64_encode (l : list byte) :
  contains "," (string_of_list_ascii (b64_encode l)) = false.
Proof.
  assert (Hc : ∀ n, (n < 64)%N → Ascii.eqb (b64_char n) "," = false).
  { intros n Hn. by apply b64_char_spec in Hn as (_ & _ & _ & ->). }
  induction l as [|x|x y|x y z r IH] using list_ind_by_three.
  - reflexivity.
  - destruct (sextets_lt_64 _ 0 0 (byte_lt_256 x) eq_refl eq_refl)
      as (? & ? & _).
    cbn. by rewrite !Hc.
  - destruct (sextets_lt_64 _ _ 0 (byte_lt_256 x) (byte_lt_256 y) eq_refl)
      as (? & ? & ? & _).
    cbn. by rewrite !Hc.
  - destruct (sextets_lt_64 _ _ _ (byte_lt_256 x) (byte_lt_256 y)
                (byte_lt_256 z)) as (? & ? & ? & ?).
    cbn. cbn in IH. by rewrite !Hc, IH.
Qed.

Lemma bytes_of_binary_string (l : list byte) :
  byte_of_ascii
    <$> list_ascii_of_string (string_of_list_ascii (ascii_of_byte <$> l))
  = l.
Proof.
  rewrite list_ascii_of_string_of_list_ascii, <- list_fmap_compose.
  rewrite <- (list_fmap_id l) at 2. apply list_fmap_ext.
  intros _ x _. apply byte_of_ascii_of_byte.
Qed.

(** Decoding a data URL whose type has no [;], no [,] and no line
    terminator: the type is the text up to the first [;], what stands between
    that [;] and the comma is not looked at, and the payload is decoded. *)
Lemma dataURLtoBlob_data_url (b : list byte) (m params : string) :
  contains ";" m = false →
  contains "," m = false →
  no_line_terminator m = true →
  contains "," params = false →
  _dataURLtoBlob
    (VStr ("data:" +:+ m +:+ String ";" params
             +:+ String "," (string_of_list_ascii (b64_encode b))))
  = Normal (new_Blob b m).
Proof.
  intros Hsemi Hcomma Hlt Hparams. rewrite dataURLtoBlob_unfold.
  set (payload := string_of_list_ascii (b64_encode b)).
  replace ("data:" +:+ m +:+ String ";" params +:+ String "," payload)
    with (("data:" +:+ m +:+ String ";" params) +:+ String "," payload)
    by (by rewrite !append_assoc).
  rewrite split_append_sep.
  2:{ rewrite !contains_append, Hcomma. simpl. by rewrite Hparams. }
  rewrite split_without_sep by apply contains_comma_b64_encode.
  cbn [List.nth].
  replace (match_colon_group_semicolon ("data:" +:+ m +:+ String ";" params))
    with (Some m).
  2:{ change ("data:" +:+ m +:+ String ";" params)
        with (String "d" (String "a" (String "t" (String "a" (String ":"
               (m +:+ String ";" params)))))).
      cbn [match_colon_group_semicolon]. cbn [Ascii.eqb Bool.eqb].
      by rewrite lazy_dots_semicolon_append. }
  unfold payload. rewrite atob_b64_encode.
  by rewrite bytes_of_binary_string.
Qed.

(** The type that the platform writes is as good as the type of the blob. *)
Lemma data_url_type_spec (m : string) :
  (contains ";" m = false → contains ";" (data_url_type m) = false)
  ∧ (contains "," m = false → contains "," (data_url_type m) = false)
  ∧ (no_line_terminator m = true →
     no_line_terminator (data_url_type m) = true)
  ∧ (normalize_type m = m →
     normalize_type (data_url_type m) = data_url_type m)
  ∧ (m ≠ EmptyString → data_url_type m = m)
  ∧ data_url_type (data_url_type m) = data_url_type m.
Proof.
  unfold data_url_type. destruct (String.eqb_spec m EmptyString) as [->|Hm].
  - by vm_compute.
  - apply String.eqb_neq in Hm. by rewrite Hm.
Qed.

(** Decoding what the reader produced for a blob whose type has no [;], no
    [,] and no line terminator. *)
Lemma dataURLtoBlob_readAsDataURL (b : list byte) (m : string) :
  contains ";" m = false →
  contains "," m = false →
  no_line_terminator m = true →
  _dataURLtoBlob (VStr (readAsDataURL {| blob_bytes := b; blob_type := m |}))
  = Normal (new_Blob b (data_url_type m)).
Proof.
  intros Hsemi Hcomma Hlt.
  destruct (data_url_type_spec m) as (H1 & H2 & H3 & _).
  unfold readAsDataURL; cbn [blob_bytes blob_type].
  change (";base64," +:+ string_of_list_ascii (b64_encode b))
    with (String ";" ("base64"
            +:+ String "," (string_of_list_ascii (b64_encode b)))).
  apply dataURLtoBlob_data_url; auto.
Qed.

End CodecFacts.

(** ** The pattern [/:(.*?);/] *)

Module PatternFacts.
Import Js StringFacts.

Lemma lazy_dots_semicolon_Some (s g : string) :
  lazy_dots_semicolon s = Some g →
  ∃ r, s = g +:+ String ";" r
       ∧ no_line_terminator g = true ∧ contains ";" g = false.
Proof.
  unfold no_line_terminator.
  revert g. induction s as [|c s IH]; intros g; simpl; [done|].
  destruct (Ascii.eqb_spec c ";") as [->|Hc].
  - intros [= <-]. by exists s.
  - destruct (is_line_terminator c) eqn:Hlt; [done|].
    destruct (lazy_dots_semicolon s) as [g'|]; [|done].
    intros [= <-]. destruct (IH g' eq_refl) as (r & -> & Hg & Hs).
    exists r. rewrite append_cons. simpl. rewrite Hlt, Hg, Hs.
    by destruct (Ascii.eqb_spec c ";").
Qed.

Lemma lazy_dots_semicolon_is_Some (g r : string) :
  no_line_terminator g = true →
  is_Some (lazy_dots_semicolon (g +:+ String ";" r)).
Proof.
  unfold no_line_terminator.
  induction g as [|c g IH]; rewrite ?append_nil, ?append_cons; simpl.
  - by eexists.
  - intros [Hc Hg]%andb_true_iff. apply negb_true_iff in Hc.
    destruct (Ascii.eqb c ";"); [by eexists|]. rewrite Hc.
    destruct (IH Hg) as [g' ->]. by eexists.
Qed.

Lemma match_colon_group_semicolon_Some (s g : string) :
  match_colon_group_semicolon s = Some g →
  ∃ a r, s = a +:+ String ":" (g +:+ String ";" r)
         ∧ no_line_terminator g = true ∧ contains ";" g = false.
Proof.
  induction s as [|c s IH]; simpl; [done|].
  assert (Hrec : match_colon_group_semicolon s = Some g →
    ∃ a r, String c s = a +:+ String ":" (g +:+ String ";" r)
           ∧ no_line_terminator g = true ∧ contains ";" g = false).
  { intros (a & r & -> & Hg)%IH. by exists (String c a), r. }
  destruct (Ascii.eqb_spec c ":") as [->|Hc]; [|done].
  destruct (lazy_dots_semicolon s) as [g'|] eqn:Hl; [|done].
  intros [= <-]. apply lazy_dots_semicolon_Some in Hl as (r & -> & Hg).
  by exists EmptyString, r.
Qed.

Lemma match_colon_group_semicolon_is_Some (a g r : string) :
  no_line_terminator g = true →
  is_Some (match_colon_group_semicolon (a +:+ String ":" (g +:+ String ";" r))).
Proof.
  intros Hg. pose proof (lazy_dots_semicolon_is_Some g r Hg) as [g' Hg'].
  induction a as [|c a IH]; rewrite ?append_nil, ?append_cons; simpl.
  - rewrite Hg'. by eexists.
  - destruct (Ascii.eqb c ":"); [|done].
    destruct (lazy_dots_semicolon (a +:+ _)); [by eexists | done].
Qed.

(** The pattern matches exactly the strings with a [:] and, later on the
    same line, a [;]. *)
Lemma match_colon_group_semicolon_spec (s : string) :
  is_Some (match_colon_group_semicolon s) ↔ colon_then_semicolon s.
Proof.
  split.
  - intros [g (a & r & -> & Hg & _)%match_colon_group_semicolon_Some].
    by exists a, g, r.
  - intros (a & g & r & -> & Hg).
    by apply match_colon_group_semicolon_is_Some.
Qed.

Lemma colon_then_semicolon_contains (s : string) :
  colon_then_semicolon s → contains ":" s = true ∧ contains ";" s = true.
Proof.
  intros (a & g & r & -> & _).
  rewrite !contains_append. simpl. rewrite !contains_append. simpl.
  by rewrite !orb_true_r.
Qed.

End PatternFacts.

(** ** The test suite of the repository, replayed on the model *)

Module TestSuite.
Import PayloadProcessor.

(** [payloadToString()]: resolves to the same object when no payload *)
Example payloadToString_no_payload :
  settle platform (payloadToString ∅) = ([], Normal ∅).
Proof. by vm_compute. Qed.

(** Creates [blob] from a Blob instance, and removes [payload] *)
Example payloadToString_blob :
  settle platform (payloadToString {[ "payload" := VBlob stars_blob ]})
  = ([stars_blob],
     Normal {[ "payload" := VUndefined;
               "blob" := VStr "data:text/plain;base64,Kioq" ]}).
Proof. by vm_compute. Qed.

(** Creates [multipart] from a FormData instance, and removes [payload] *)
Example payloadToString_form :
  ∃ result multipart,
    settle platform (payloadToString {[ "payload" := VFormData test_form ]})
    = ([stars_blob; stars_blob], Normal result)
    ∧ result !! "multipart" = Some (VArr multipart)
    ∧ length multipart = 3%nat
    ∧ result !! "payload" = Some VUndefined.
Proof. do 2 eexists. repeat split; by vm_compute. Qed.

(** Resolves to the same object when payload is a string *)
Example payloadToString_string :
  settle platform (payloadToString {[ "payload" := VStr "test" ]})
  = ([], Normal {[ "payload" := VStr "test" ]}).
Proof. by vm_compute. Qed.

(** [_blobToString()]: the string is a valid data URL *)
Example blobToString_data_url :
  settle platform (_blobToString stars_blob)
  = ([stars_blob], Normal "data:text/plain;base64,Kioq").
Proof. by vm_compute. Qed.

(** [_dataURLtoBlob()]: restores the type, size match *)
Example dataURLtoBlob_type_size :
  ∃ b,
    _dataURLtoBlob (VStr "data:text/plain;base64,Kioq") = Normal b
    ∧ blob_type b = "text/plain" ∧ length (blob_bytes b) = 3%nat.
Proof. eexists. repeat split; by vm_compute. Qed.

(** [_createMultipartEntry()]: computes file part, text part, sets
    [isTextBlob] *)
Example createMultipartEntry_parts :
  ∃ p,
    _createMultipartEntry test_form = Normal p
    ∧ settle platform p
      = ([stars_blob; stars_blob],
         Normal
           [VObj {[ "name" := VStr "file";
                    "value" := VStr "data:text/plain;base64,Kioq";
                    "isFile" := VBool true ]};
            VObj {[ "name" := VStr "text"; "value" := VStr "abcd";
                    "isFile" := VBool false ]};
            VObj {[ "name" := VStr "text-part";
                    "value" := VStr "data:text/plain;base64,Kioq";
                    "isFile" := VBool false;
                    "isTextBlob" := VBool true ]}]).
Proof. eexists. split; by vm_compute. Qed.

(** [restoreMultipart()]: returns an empty FormData when no model *)
Example restoreMultipart_no_model :
  restoreMultipart VUndefined = Normal new_FormData.
Proof. reflexivity. Qed.

(** Processes a text entry *)
Example restoreMultipart_text :
  restoreMultipart (VArr [VObj text_model])
  = Normal {| fd_entries := [("test-name", EntryString "test-value")];
              fd_has_entries := true;
              _arcMeta := Some {| textParts := Some [] |} |}.
Proof. by vm_compute. Qed.

(** Processes a text entry with content type, sets text parts meta data *)
Example restoreMultipart_text_blob :
  restoreMultipart (VArr [VObj text_blob_model])
  = Normal {| fd_entries :=
                [("test-name",
                  EntryFile {| file_blob := stars_blob;
                               file_name := "blob" |})];
              fd_has_entries := true;
              _arcMeta := Some {| textParts := Some [VStr "test-name"] |} |}.
Proof. by vm_compute. Qed.

(** [restorePayload()]: does nothing when no created payload data *)
Example restorePayload_nothing : restorePayload ∅ = ([], ∅).
Proof. by vm_compute. Qed.

(** Restores blob data *)
Example restorePayload_blob :
  restorePayload {[ "blob" := VStr "data:text/plain;base64,Kioq" ]}
  = ([], {[ "payload" := VBlob stars_blob ]}).
Proof. by vm_compute. Qed.

(** Restores multipart data *)
Example restorePayload_multipart :
  restorePayload {[ "multipart" := VArr [VObj text_model] ]}
  = ([],
     {[ "payload" :=
          VFormData
            {| fd_entries := [("test-name", EntryString "test-value")];
               fd_has_entries := true;
               _arcMeta := Some {| textParts := Some [] |} |} ]}).
Proof. by vm_compute. Qed.

(** A read that fails rejects the promise, and no later field is read. *)
Example createMultipartEntry_read_error :
  ∃ p,
    _createMultipartEntry test_form = Normal p
    ∧ settle (λ _, onerror) p
      = ([stars_blob],
         Throw (Error_ "Unable to convert blob to string.")).
Proof. eexists. split; by vm_compute. Qed.

End TestSuite.

(** ** Claims about the data-URL codec *)

Module Codec.
Import Js PayloadProcessor StringFacts CodecFacts PatternFacts.

(** C1, as stated, fails: a blob whose type carries a parameter comes back
    with the bare type.  The blob [***] of type [text/plain;charset=utf-8]
    is read as [data:text/plain;charset=utf-8;base64,Kioq], and decoding
    that string gives a blob of type [text/plain]. *)
Lemma roundtrip_drops_type_parameter :
  normalize_type "text/plain;charset=utf-8" = "text/plain;charset=utf-8"
  ∧ settle platform
      (_blobToString
         {| blob_bytes := stars; blob_type := "text/plain;charset=utf-8" |})
    = ([{| blob_bytes := stars; blob_type := "text/plain;charset=utf-8" |}],
       Normal "data:text/plain;charset=utf-8;base64,Kioq")
  ∧ _dataURLtoBlob (VStr "data:text/plain;charset=utf-8;base64,Kioq")
    = Normal {| blob_bytes := stars; blob_type := "text/plain" |}
  ∧ {| blob_bytes := stars; blob_type := "text/plain" |}
    ≠ {| blob_bytes := stars; blob_type := "text/plain;charset=utf-8" |}.
Proof. repeat split; [by vm_compute..|discriminate]. Qed.

(** C1, amended: for every byte sequence [b] and every media type [m] that
    a blob can carry (the [Blob] constructor keeps it as it is) and that
    has no [;] and no [,], reading a blob of bytes [b] and type [m] as a
    data URL and decoding the result gives a blob of bytes [b]; its type is
    [m] when [m] is not empty, and [application/octet-stream] when the blob
    has no type. *)
Theorem roundtrip_bare_type (b : list byte) (m : string) :
  normalize_type m = m →
  contains ";" m = false →
  contains "," m = false →
  ∃ url,
    settle platform (_blobToString {| blob_bytes := b; blob_type := m |})
    = ([{| blob_bytes := b; blob_type := m |}], Normal url)
    ∧ (m ≠ EmptyString →
       _dataURLtoBlob (VStr url)
       = Normal {| blob_bytes := b; blob_type := m |})
    ∧ (m = EmptyString →
       _dataURLtoBlob (VStr url)
       = Normal {| blob_bytes := b;
                   blob_type := "application/octet-stream" |}).
Proof.
  intros Hm Hsemi Hcomma. eexists. split; [reflexivity|].
  rewrite dataURLtoBlob_readAsDataURL; try done.
  2:{ rewrite <- Hm. apply normalize_type_no_line_terminator. }
  destruct (data_url_type_spec m) as (_ & _ & _ & Hn & Hne & _).
  unfold new_Blob. rewrite (Hn Hm). split.
  - intros Hnot. by rewrite (Hne Hnot).
  - by intros ->.
Qed.

Lemma roundtrip_bare_type_witness :
  ∃ url,
    settle platform
      (_blobToString {| blob_bytes := stars; blob_type := "text/plain" |})
    = ([{| blob_bytes := stars; blob_type := "text/plain" |}], Normal url)
    ∧ _dataURLtoBlob (VStr url)
      = Normal {| blob_bytes := stars; blob_type := "text/plain" |}.
Proof.
  destruct (roundtrip_bare_type stars "text/plain")
    as (url & Hs & Hd & _); [reflexivity..|].
  exists url. split; [exact Hs|]. by apply Hd.
Defined.

(** C5, as stated, fails: a string without the [data:] prefix is decoded
    when it has a [:] and a [;] before its first comma.  The string
    [x:text/plain;base64,Kioq] does not have the shape of a data URL, and
    [_dataURLtoBlob] returns the blob [***] of type [text/plain] for it. *)
Lemma dataURLtoBlob_accepts_other_prefix :
  ¬ data_url_shape "x:text/plain;base64,Kioq"
  ∧ _dataURLtoBlob (VStr "x:text/plain;base64,Kioq")
    = Normal {| blob_bytes := stars; blob_type := "text/plain" |}.
Proof.
  split; [|by vm_compute].
  intros (mediaType & payload & H & _). discriminate H.
Qed.

(** C5, amended: [_dataURLtoBlob] throws if and only if the text before the
    first comma has no [:] followed on the same line by a [;], or the text
    between the first and the second comma (the string [undefined] when
    there is no comma) is not base64 that [atob] accepts.  The scheme name
    [data] and the token [base64] are not looked at, and what follows a
    second comma is ignored. *)
Theorem dataURLtoBlob_throws_iff (dataurl : string) :
  throws (_dataURLtoBlob (VStr dataurl))
  ↔ ¬ (colon_then_semicolon (List.nth 0 (split "," dataurl) EmptyString)
       ∧ is_Some (atob (List.nth 1 (split "," dataurl) "undefined"))).
Proof.
  rewrite dataURLtoBlob_unfold, <- match_colon_group_semicolon_spec.
  destruct (match_colon_group_semicolon _) as [mime|]; simpl.
  - destruct (atob _) as [bstr|]; simpl.
    + split; [done|]. intros []. split; by eexists.
    + split; [|done]. by intros _ [_ [? ?]].
  - split; [|done]. by intros _ [[? ?] _].
Qed.

Lemma dataURLtoBlob_throws_iff_witness :
  throws (_dataURLtoBlob (VStr "not-a-data-url")).
Proof.
  apply (proj2 (dataURLtoBlob_throws_iff "not-a-data-url")).
  intros [[H _]%colon_then_semicolon_contains _]. discriminate H.
Defined.

End Codec.

(** ** Restoring a multipart model *)

Module RestoreFacts.
Import PayloadProcessor.

(** A [length] is truthy unless it is zero. *)
Lemma truthy_length_number (n : nat) :
  truthy (VNum (length_number n)) = negb (n =? 0)%nat.
Proof.
  cbn [truthy length_number int_value]. f_equal.
  destruct n as [|n]; [done|].
  apply Z.eqb_neq. unfold MAX_SAFE_INTEGER. lia.
Qed.

Lemma restorePart_record (fd : FormData) (part : Obj) :
  restorePart fd (VObj part)
  = Normal
      (append
         (if text_blob_marked part then
            {| fd_entries := fd_entries fd;
               fd_has_entries := fd_has_entries fd;
               _arcMeta :=
                 (λ meta : ArcMeta,
                    {| textParts :=
                         (λ l, l ++ [get part "name"]) <$> textParts meta |})
                   <$> _arcMeta fd |}
          else fd)
         (get part "name") (restored_value part)).
Proof.
  unfold restorePart, restored_value, text_blob_marked, binary_marked.
  cbn [prop mbind Completion_bind].
  destruct (truthy (get part "isFile")); cbn [negb andb orb].
  - by destruct (_dataURLtoBlob (get part "value")).
  - destruct (truthy (get part "isTextBlob")); [|done].
    by destruct (_dataURLtoBlob (get part "value")).
Qed.

(** The loop over records: one entry per record, in order, and the names of
    the text-blob records at the end of the text-parts list. *)
Lemma forEach_records (parts : list Obj)
    (entries : list (string * FormDataEntryValue)) (names : list Value) :
  forEach (VObj <$> parts)
    {| fd_entries := entries; fd_has_entries := true;
       _arcMeta := Some {| textParts := Some names |} |}
  = Normal
      {| fd_entries :=
           entries
             ++ ((λ part, form_entry (get part "name") (restored_value part))
                   <$> parts);
         fd_has_entries := true;
         _arcMeta :=
           Some {| textParts :=
                     Some (names ++ ((λ part, get part "name")
                                       <$> List.filter text_blob_marked parts))
                |} |}.
Proof.
  revert entries names.
  induction parts as [|part parts IH]; intros entries names.
  - cbn. by rewrite !app_nil_r.
  - cbn [fmap list_fmap forEach]. rewrite restorePart_record.
    cbn [mbind Completion_bind List.filter].
    destruct (text_blob_marked part); unfold append; cbn; rewrite IH;
      by rewrite <- !app_assoc.
Qed.

(** [restoreMultipart] on an array of records never throws. *)
Lemma restoreMultipart_records (parts : list Obj) :
  restoreMultipart (VArr (VObj <$> parts))
  = Normal
      {| fd_entries :=
           (λ part, form_entry (get part "name") (restored_value part))
             <$> parts;
         fd_has_entries := true;
         _arcMeta :=
           match parts with
           | [] => None
           | _ :: _ =>
               Some {| textParts :=
                         Some ((λ part, get part "name")
                                 <$> List.filter text_blob_marked parts) |}
           end |}.
Proof.
  destruct parts as [|part parts]; [done|].
  unfold restoreMultipart.
  cbn [prop mbind Completion_bind String.eqb Ascii.eqb Bool.eqb].
  rewrite truthy_length_number.
  cbn [truthy fmap list_fmap length Nat.eqb negb].
  cbn [new_FormData fd_entries fd_has_entries].
  change (VObj part :: (VObj <$> parts)) with (VObj <$> part :: parts).
  by rewrite forEach_records.
Qed.

End RestoreFacts.

(** ** Encoding a multipart container *)

Module EncodeFacts.
Import PayloadProcessor.

(** A string field is pushed at once, and the iteration goes on. *)
Lemma computeFormDataEntry_string (name s : string)
    (rest : list (string * FormDataEntryValue))
    (textParts : option (list Value)) (result : option (list Value)) :
  _computeFormDataEntry ((name, EntryString s) :: rest) textParts result
  = _computeFormDataEntry rest textParts
      (Some (default [] result ++ [string_record name s])).
Proof. reflexivity. Qed.

(** A file field starts one read; the iteration goes on from the
    continuation of that read, with the record of the field pushed. *)
Lemma computeFormDataEntry_file (name : string) (f : File)
    (rest : list (string * FormDataEntryValue))
    (textParts : option (list Value)) (result : option (list Value)) :
  ∃ k,
    _computeFormDataEntry ((name, EntryFile f) :: rest) textParts result
    = Reading (file_blob f) k
    ∧ (∀ url,
         k (onloadend url)
         = _computeFormDataEntry rest textParts
             (Some (default [] result ++ [file_record textParts name url])))
    ∧ k onerror = Rejected (Error_ "Unable to convert blob to string.").
Proof.
  cbn [_computeFormDataEntry]. unfold file_record, isMarkedTextBlob.
  destruct textParts as [textParts|];
    [destruct (negb (indexOf textParts name =? -1)%Z)|];
    (eexists; split; [reflexivity|]; split; [intros url|]; reflexivity).
Qed.

(** Settled with the platform's reader, the iteration appends the records of
    the fields in order and reads their blobs in order. *)
Lemma computeFormDataEntry_settle
    (iterator : list (string * FormDataEntryValue))
    (textParts : option (list Value)) (result : option (list Value)) :
  settle platform (_computeFormDataEntry iterator textParts result)
  = (blobs_of iterator,
     Normal (default [] result ++ (part_record textParts <$> iterator))).
Proof.
  revert result.
  induction iterator as [|[name [s|f]] rest IH]; intros result.
  - cbn. by rewrite app_nil_r.
  - rewrite computeFormDataEntry_string, IH.
    cbn [default id fmap list_fmap blobs_of part_record].
    by rewrite <- app_assoc.
  - destruct (computeFormDataEntry_file name f rest textParts result)
      as (k & -> & Hk & _).
    cbn [settle]. unfold platform at 2. rewrite Hk, IH.
    cbn [default id fmap list_fmap blobs_of part_record].
    by rewrite <- app_assoc.
Qed.

(** Whatever the reader answers, the blobs are read in the order of the
    fields, and none is passed over: the reads are a prefix of the blobs of
    the container. *)
Lemma computeFormDataEntry_reads (reader : Blob → FileReaderEvent)
    (iterator : list (string * FormDataEntryValue))
    (textParts : option (list Value)) (result : option (list Value)) :
  ∃ n,
    (settle reader (_computeFormDataEntry iterator textParts result)).1
    = take n (blobs_of iterator).
Proof.
  revert result.
  induction iterator as [|[name [s|f]] rest IH]; intros result.
  - by exists 0%nat.
  - rewrite computeFormDataEntry_string. apply IH.
  - destruct (computeFormDataEntry_file name f rest textParts result)
      as (k & -> & Hk & He).
    cbn [settle blobs_of]. destruct (reader (file_blob f)) as [url|].
    + rewrite Hk.
      destruct (IH (Some (default [] result
                            ++ [file_record textParts name url]))) as [n Hn].
      exists (S n). destruct (settle reader _) as [reads r].
      cbn in *. by rewrite Hn.
    + rewrite He. by exists 1%nat.
Qed.

Lemma createMultipartEntry_settle
    (entries : list (string * FormDataEntryValue)) (meta : option ArcMeta) :
  ∃ p,
    _createMultipartEntry
      {| fd_entries := entries; fd_has_entries := true; _arcMeta := meta |}
    = Normal p
    ∧ settle platform p
      = (blobs_of entries,
         Normal (part_record (textParts_of meta) <$> entries))
    ∧ ∀ reader, ∃ n, (settle reader p).1 = take n (blobs_of entries).
Proof.
  eexists. split; [reflexivity|]. split.
  - apply computeFormDataEntry_settle.
  - intros reader. apply computeFormDataEntry_reads.
Qed.

Lemma part_record_name (textParts : option (list Value))
    (entry : string * FormDataEntryValue) :
  prop (part_record textParts entry) "name" = Normal (VStr entry.1).
Proof.
  destruct entry as [name [s|f]];
    cbn [part_record]; unfold string_record, file_record;
    [|destruct (isMarkedTextBlob textParts name)];
    cbn [prop]; unfold get; by simplify_map_eq.
Qed.

End EncodeFacts.

(** ** Claims about multipart containers *)

Module Multipart.
Import PayloadProcessor EncodeFacts RestoreFacts.

(** C2: for every multipart container (one that has [entries()]),
    [_createMultipartEntry] resolves to the list of the records of its
    fields in insertion order: one record per field, the i-th record
    carrying the name of the i-th field.  The
    fields are taken one at a time: a string field is pushed before the
    iteration goes on; a file field starts one read, and the remaining
    fields are entered only from the continuation of that read, once the
    record of the field is pushed.  So the blobs are read in insertion
    order, whatever the reads answer, and no read starts before the one
    before it has ended. *)
Theorem createMultipartEntry_order
    (entries : list (string * FormDataEntryValue)) (meta : option ArcMeta) :
  (∃ p,
     _createMultipartEntry
       {| fd_entries := entries; fd_has_entries := true; _arcMeta := meta |}
     = Normal p
     ∧ settle platform p
       = (blobs_of entries,
          Normal (part_record (textParts_of meta) <$> entries))
     ∧ (λ part, prop part "name")
         <$> (part_record (textParts_of meta) <$> entries)
       = (λ entry, Normal (VStr entry.1)) <$> entries
     ∧ ∀ reader, ∃ n, (settle reader p).1 = take n (blobs_of entries))
  ∧ (∀ name s rest result,
       _computeFormDataEntry ((name, EntryString s) :: rest)
         (textParts_of meta) result
       = _computeFormDataEntry rest (textParts_of meta)
           (Some (default [] result ++ [string_record name s])))
  ∧ (∀ name f rest result,
       ∃ k,
         _computeFormDataEntry ((name, EntryFile f) :: rest)
           (textParts_of meta) result
         = Reading (file_blob f) k
         ∧ (∀ url,
              k (onloadend url)
              = _computeFormDataEntry rest (textParts_of meta)
                  (Some (default [] result
                           ++ [file_record (textParts_of meta) name url])))
         ∧ k onerror = Rejected (Error_ "Unable to convert blob to string.")).
Proof.
  split; [|split].
  - destruct (createMultipartEntry_settle entries meta)
      as (p & Hp & Hs & Hr).
    exists p. split; [done|]. split; [done|]. split; [|done].
    rewrite <- list_fmap_compose. apply list_fmap_ext.
    intros _ entry _. apply part_record_name.
  - intros. apply computeFormDataEntry_string.
  - intros name f rest result.
    apply computeFormDataEntry_file.
Qed.

(** C3, as stated, fails: the record of a file field has no [fileName].  A
    container with the one field [file], a file named [file-name] with the
    content [***] and the type [text/plain], encodes to the record
    [{name, value, isFile}], where the specification has [fileName] set to
    [file-name]. *)
Lemma file_record_has_no_fileName :
  settle platform
    (_computeFormDataEntry
       [("file", EntryFile {| file_blob := stars_blob;
                              file_name := "file-name" |})]
       None None)
  = ([stars_blob],
     Normal [VObj {[ "name" := VStr "file";
                     "value" := VStr "data:text/plain;base64,Kioq";
                     "isFile" := VBool true ]}])
  ∧ ({[ "name" := VStr "file";
        "value" := VStr "data:text/plain;base64,Kioq";
        "isFile" := VBool true ]} : Obj) !! "fileName" = None
  ∧ spec_file_record "file" "data:text/plain;base64,Kioq" "file-name"
      !! "fileName" = Some (VStr "file-name").
Proof. repeat split; by vm_compute. Qed.

(** C3, amended: for every multipart field whose value is a binary blob and
    whose name is not in the text-parts list, the record that the encoding
    emits at the position of the field is [{name, value, isFile: true}] with
    the data URL of the blob as [value]; it has no [fileName], whatever the
    name of the file was. *)
Theorem file_part_record
    (entries : list (string * FormDataEntryValue)) (meta : option ArcMeta)
    (i : nat) (name : string) (f : File) :
  entries !! i = Some (name, EntryFile f) →
  isMarkedTextBlob (textParts_of meta) name = false →
  ∃ p parts part,
    _createMultipartEntry
      {| fd_entries := entries; fd_has_entries := true; _arcMeta := meta |}
    = Normal p
    ∧ settle platform p = (blobs_of entries, Normal parts)
    ∧ parts !! i = Some (VObj part)
    ∧ part = {[ "name" := VStr name;
                "value" := VStr (readAsDataURL (file_blob f));
                "isFile" := VBool true ]}
    ∧ part !! "fileName" = None.
Proof.
  intros Hi Hmark.
  destruct (createMultipartEntry_settle entries meta) as (p & Hp & Hs & _).
  exists p. eexists. eexists. split; [done|]. split; [done|].
  rewrite list_lookup_fmap, Hi. cbn [fmap option_fmap option_map part_record].
  unfold file_record. rewrite Hmark.
  split; [reflexivity|]. split; [reflexivity|].
  by simplify_map_eq.
Qed.

Lemma file_part_record_witness :
  ∃ p parts part,
    _createMultipartEntry
      {| fd_entries :=
           [("file", EntryFile {| file_blob := stars_blob;
                                  file_name := "file-name" |})];
         fd_has_entries := true; _arcMeta := None |}
    = Normal p
    ∧ settle platform p = ([stars_blob], Normal parts)
    ∧ parts !! 0%nat = Some (VObj part)
    ∧ part = {[ "name" := VStr "file";
                "value" := VStr "data:text/plain;base64,Kioq";
                "isFile" := VBool true ]}
    ∧ part !! "fileName" = None.
Proof.
  exact (file_part_record
           [("file", EntryFile {| file_blob := stars_blob;
                                  file_name := "file-name" |})]
           None 0 "file"
           {| file_blob := stars_blob; file_name := "file-name" |}
           eq_refl eq_refl).
Defined.

(** C4, as stated, fails: the record of a text blob has no [type]; the code
    marks it with [isTextBlob].  A container with the one field [text-part],
    a blob [***] of type [text/plain] whose name is in the text-parts list,
    encodes to [{name, value, isFile: false, isTextBlob: true}], where the
    specification has [type] set to [text/plain]. *)
Lemma text_blob_record_has_no_type :
  settle platform
    (_computeFormDataEntry
       [("text-part", EntryFile {| file_blob := stars_blob;
                                   file_name := "blob" |})]
       (Some [VStr "text-part"]) None)
  = ([stars_blob],
     Normal [VObj {[ "name" := VStr "text-part";
                     "value" := VStr "data:text/plain;base64,Kioq";
                     "isFile" := VBool false;
                     "isTextBlob" := VBool true ]}])
  ∧ ({[ "name" := VStr "text-part";
        "value" := VStr "data:text/plain;base64,Kioq";
        "isFile" := VBool false;
        "isTextBlob" := VBool true ]} : Obj) !! "type" = None
  ∧ spec_text_blob_record "text-part" "data:text/plain;base64,Kioq"
      "text/plain" !! "type" = Some (VStr "text/plain").
Proof. repeat split; by vm_compute. Qed.

(** C4, amended: for every multipart field whose value is a binary blob and
    whose name is in the text-parts list, the record that the encoding emits
    at the position of the field has [isFile: false], the data URL of the
    blob as [value] and [isTextBlob: true]; it has no [type] and no
    [fileName]. *)
Theorem text_blob_part_record
    (entries : list (string * FormDataEntryValue)) (meta : option ArcMeta)
    (i : nat) (name : string) (f : File) :
  entries !! i = Some (name, EntryFile f) →
  isMarkedTextBlob (textParts_of meta) name = true →
  ∃ p parts part,
    _createMultipartEntry
      {| fd_entries := entries; fd_has_entries := true; _arcMeta := meta |}
    = Normal p
    ∧ settle platform p = (blobs_of entries, Normal parts)
    ∧ parts !! i = Some (VObj part)
    ∧ part !! "name" = Some (VStr name)
    ∧ part !! "value" = Some (VStr (readAsDataURL (file_blob f)))
    ∧ part !! "isFile" = Some (VBool false)
    ∧ part !! "isTextBlob" = Some (VBool true)
    ∧ part !! "type" = None
    ∧ part !! "fileName" = None
    ∧ dom part = {[ "name"; "value"; "isFile"; "isTextBlob" ]}.
Proof.
  intros Hi Hmark.
  destruct (createMultipartEntry_settle entries meta) as (p & Hp & Hs & _).
  exists p. eexists. eexists. split; [done|]. split; [done|].
  rewrite list_lookup_fmap, Hi. cbn [fmap option_fmap option_map part_record].
  unfold file_record. rewrite Hmark. split; [reflexivity|].
  repeat split; by simplify_map_eq.
Qed.

Lemma text_blob_part_record_witness :
  ∃ p parts part,
    _createMultipartEntry
      {| fd_entries :=
           [("text-part", EntryFile {| file_blob := stars_blob;
                                       file_name := "blob" |})];
         fd_has_entries := true;
         _arcMeta := Some {| textParts := Some [VStr "text-part"] |} |}
    = Normal p
    ∧ settle platform p = ([stars_blob], Normal parts)
    ∧ parts !! 0%nat = Some (VObj part)
    ∧ part !! "name" = Some (VStr "text-part")
    ∧ part !! "value" = Some (VStr "data:text/plain;base64,Kioq")
    ∧ part !! "isFile" = Some (VBool false)
    ∧ part !! "isTextBlob" = Some (VBool true)
    ∧ part !! "type" = None
    ∧ part !! "fileName" = None
    ∧ dom part = {[ "name"; "value"; "isFile"; "isTextBlob" ]}.
Proof.
  exact (text_blob_part_record
           [("text-part", EntryFile {| file_blob := stars_blob;
                                       file_name := "blob" |})]
           (Some {| textParts := Some [VStr "text-part"] |}) 0 "text-part"
           {| file_blob := stars_blob; file_name := "blob" |}
           eq_refl eq_refl).
Defined.

(** C7, as stated, fails in its last part: the failure is not surfaced.  A
    file record whose value is [not-a-data-url] is restored as the empty
    string, [restoreMultipart] returns as it does for a text record whose
    value is the empty string, and [restorePayload] writes no warning. *)
Lemma restoreMultipart_swallows_failure :
  throws (_dataURLtoBlob (get broken_file_model "value"))
  ∧ restoreMultipart (VArr [VObj broken_file_model])
    = Normal {| fd_entries := [("f", EntryString EmptyString)];
                fd_has_entries := true;
                _arcMeta := Some {| textParts := Some [] |} |}
  ∧ restoreMultipart (VArr [VObj broken_file_model])
    = restoreMultipart (VArr [VObj empty_text_model])
  ∧ (restorePayload {[ "multipart" := VArr [VObj broken_file_model] ]}).1
    = [].
Proof. repeat split; by vm_compute. Qed.

(** C7, amended: for every list of records and every record of it that is
    marked as binary ([isFile] truthy, or [isTextBlob] truthy) and whose value
    does not decode as a data URL, [restoreMultipart] returns a container all
    the same; the field of that record holds the empty string, and every
    record of the list has its field at its position.  The failure is
    swallowed: [restorePayload] sets [payload] to that container and writes
    no warning. *)
Theorem restoreMultipart_undecodable_part
    (parts : list Obj) (i : nat) (part : Obj) :
  parts !! i = Some part →
  binary_marked part = true →
  throws (_dataURLtoBlob (get part "value")) →
  ∃ fd,
    restoreMultipart (VArr (VObj <$> parts)) = Normal fd
    ∧ fd_entries fd !! i
      = Some (ToString (get part "name"), EntryString EmptyString)
    ∧ fd_entries fd
      = (λ part, form_entry (get part "name") (restored_value part)) <$> parts
    ∧ ∀ request : Obj,
        request !! "multipart" = Some (VArr (VObj <$> parts)) →
        restorePayload request
        = ([], delete "multipart" (<["payload" := VFormData fd]> request)).
Proof.
  intros Hi Hmark Hthrow. eexists. split; [apply restoreMultipart_records|].
  cbn [fd_entries]. split; [|split; [done|]].
  - rewrite list_lookup_fmap, Hi. cbn. unfold restored_value.
    rewrite Hmark. by destruct (_dataURLtoBlob (get part "value")).
  - intros request Hreq. unfold restorePayload, get. rewrite Hreq.
    cbn [default id truthy]. by rewrite restoreMultipart_records.
Qed.

Lemma restoreMultipart_undecodable_part_witness :
  ∃ fd,
    restoreMultipart (VArr (VObj <$> [text_model; broken_file_model]))
    = Normal fd
    ∧ fd_entries fd !! 1%nat = Some ("f", EntryString EmptyString)
    ∧ fd_entries fd
      = [("test-name", EntryString "test-value");
         ("f", EntryString EmptyString)].
Proof.
  destruct (restoreMultipart_undecodable_part
              [text_model; broken_file_model] 1 broken_file_model
              eq_refl eq_refl I) as (fd & H1 & H2 & H3 & _).
  exists fd. split; [exact H1|]. split; [exact H2 | exact H3].
Defined.

(** C9: for every list of records, [restoreMultipart] puts into the
    text-parts list of the restored container the name of every record that
    is marked as a text blob ([isFile] falsy and the marker [isTextBlob]
    truthy), in the order of the records, and the field of such a record
    holds the blob that its stored data URL decodes to. *)
Theorem restoreMultipart_side_channel (parts : list Obj) :
  ∃ fd,
    restoreMultipart (VArr (VObj <$> parts)) = Normal fd
    ∧ side_channel fd
      = (λ part, get part "name") <$> List.filter text_blob_marked parts
    ∧ ∀ i part b,
        parts !! i = Some part →
        text_blob_marked part = true →
        _dataURLtoBlob (get part "value") = Normal b →
        fd_entries fd !! i
        = Some (ToString (get part "name"),
                EntryFile {| file_blob := b; file_name := "blob" |}).
Proof.
  eexists. split; [apply restoreMultipart_records|]. split.
  - by destruct parts.
  - intros i part b Hi Hmark Hb. cbn [fd_entries].
    rewrite list_lookup_fmap, Hi. cbn. unfold restored_value, binary_marked.
    apply andb_true_iff in Hmark as [_ ->]. by rewrite orb_true_r, Hb.
Qed.

Lemma restoreMultipart_side_channel_witness :
  ∃ fd,
    restoreMultipart (VArr (VObj <$> [text_blob_model])) = Normal fd
    ∧ side_channel fd = [VStr "test-name"]
    ∧ fd_entries fd !! 0%nat
      = Some ("test-name",
              EntryFile {| file_blob := stars_blob; file_name := "blob" |}).
Proof.
  destruct (restoreMultipart_side_channel [text_blob_model])
    as (fd & H1 & H2 & H3).
  exists fd. split; [exact H1|]. split; [exact H2|].
  exact (H3 0%nat text_blob_model stars_blob eq_refl eq_refl eq_refl).
Defined.

End Multipart.

(** ** Claims about the request *)

Module Envelope.
Import PayloadProcessor RestoreFacts.

(** C8: for every request without a payload, and for every request whose
    payload is a string, [payloadToString] resolves, without a read, to the
    request it was given: every field is as it was. *)
Theorem payloadToString_identity (request : Obj) :
  request !! "payload" = None
  ∨ (∃ s, request !! "payload" = Some (VStr s)) →
  payloadToString request = Resolved request
  ∧ settle platform (payloadToString request) = ([], Normal request).
Proof.
  intros H.
  assert (Hp : payloadToString request = Resolved request);
    [|by rewrite Hp].
  unfold payloadToString, get.
  destruct H as [-> | [s ->]]; [done|].
  cbn [default id truthy]. by destruct (negb (negb (String.eqb s EmptyString))).
Qed.

Lemma payloadToString_identity_witness :
  payloadToString (<["payload" := VStr "test"]> init_request)
  = Resolved (<["payload" := VStr "test"]> init_request)
  ∧ payloadToString init_request = Resolved init_request.
Proof.
  split.
  - apply (payloadToString_identity
             (<["payload" := VStr "test"]> init_request)).
    right. by exists "test".
  - apply (payloadToString_identity init_request). by left.
Defined.

(** C6: for every request whose [multipart] (or, when [multipart] is falsy,
    whose [blob]) throws when it is decoded, [restorePayload] catches the
    exception: it returns the request without that field and with [payload]
    as it was, so unset when it was unset, and writes one warning. *)
Theorem restorePayload_decode_failure (request : Obj) (e : Error) :
  (truthy (get request "multipart") = true →
   restoreMultipart (get request "multipart") = Throw e →
   restorePayload request
   = ([unable_to_restore e], delete "multipart" request)
   ∧ (restorePayload request).2 !! "multipart" = None
   ∧ (restorePayload request).2 !! "payload" = request !! "payload")
  ∧ (truthy (get request "multipart") = false →
     truthy (get request "blob") = true →
     _dataURLtoBlob (get request "blob") = Throw e →
     restorePayload request = ([unable_to_restore e], delete "blob" request)
     ∧ (restorePayload request).2 !! "blob" = None
     ∧ (restorePayload request).2 !! "payload" = request !! "payload").
Proof.
  split.
  - intros Hm He.
    assert (Hr : restorePayload request
                 = ([unable_to_restore e], delete "multipart" request))
      by (unfold restorePayload; by rewrite Hm, He).
    rewrite Hr. split; [done|]. cbn [snd]. by simplify_map_eq.
  - intros Hm Hb He.
    assert (Hr : restorePayload request
                 = ([unable_to_restore e], delete "blob" request))
      by (unfold restorePayload; by rewrite Hm, Hb, He).
    rewrite Hr. split; [done|]. cbn [snd]. by simplify_map_eq.
Qed.

Lemma restorePayload_decode_failure_witness :
  restorePayload (<["blob" := VStr "not-a-data-url"]> init_request)
  = ([unable_to_restore TypeError], init_request)
  ∧ restorePayload (<["multipart" := VArr [VNull]]> init_request)
    = ([unable_to_restore TypeError], init_request).
Proof.
  split.
  - exact (proj1 (proj2 (restorePayload_decode_failure
                           (<["blob" := VStr "not-a-data-url"]> init_request)
                           TypeError)
                        eq_refl eq_refl eq_refl)).
  - exact (proj1 (proj1 (restorePayload_decode_failure
                           (<["multipart" := VArr [VNull]]> init_request)
                           TypeError)
                        eq_refl eq_refl)).
Defined.

(** C10: for every request that has both a [multipart] list of records and
    a [blob], [restorePayload] sets [payload] to the container restored from
    the records and removes [multipart]; [blob] stays as it was. *)
Theorem restorePayload_multipart_first
    (request : Obj) (parts : list Obj) (blob : Value) :
  request !! "multipart" = Some (VArr (VObj <$> parts)) →
  request !! "blob" = Some blob →
  ∃ fd,
    restoreMultipart (VArr (VObj <$> parts)) = Normal fd
    ∧ restorePayload request
      = ([], delete "multipart" (<["payload" := VFormData fd]> request))
    ∧ (restorePayload request).2 !! "payload" = Some (VFormData fd)
    ∧ (restorePayload request).2 !! "multipart" = None
    ∧ (restorePayload request).2 !! "blob" = Some blob.
Proof.
  intros Hm Hb. eexists. split; [apply restoreMultipart_records|].
  assert (Hr : ∀ fd, restoreMultipart (VArr (VObj <$> parts)) = Normal fd →
            restorePayload request
            = ([], delete "multipart" (<["payload" := VFormData fd]> request))).
  { intros fd Hfd. unfold restorePayload, get. rewrite Hm.
    cbn [default id truthy]. by rewrite Hfd. }
  rewrite (Hr _ (restoreMultipart_records parts)).
  split; [done|]. cbn [snd]. repeat split; by simplify_map_eq.
Qed.

Lemma restorePayload_multipart_first_witness :
  ∃ fd,
    restoreMultipart (VArr (VObj <$> [text_model])) = Normal fd
    ∧ (restorePayload both_request).2 !! "payload" = Some (VFormData fd)
    ∧ (restorePayload both_request).2 !! "multipart" = None
    ∧ (restorePayload both_request).2 !! "blob"
      = Some (VStr "data:text/plain;base64,Kioq").
Proof.
  destruct (restorePayload_multipart_first both_request [text_model]
              (VStr "data:text/plain;base64,Kioq"))
    as (fd & H1 & _ & H2 & H3 & H4); [reflexivity | reflexivity |].
  exists fd. split; [exact H1|]. split; [exact H2|]. split; [exact H3|exact H4].
Defined.

End Envelope.

(** * Further properties *)

(** ** Promises *)

Module PromiseFacts.

(** Settling [p.then(f)]: [p] first, and [f] on its value when it has
    one. *)
Lemma settle_then {A B} (reader : Blob → FileReaderEvent)
    (p : Promise A) (f : A → Promise B) :
  settle reader (then_ p f)
  = match settle reader p with
    | (reads, Normal a) =>
        let (reads', r) := settle reader (f a) in (reads ++ reads', r)
    | (reads, Throw e) => (reads, Throw e)
    end.
Proof.
  induction p as [a|e|blob k IH]; cbn [then_ settle].
  - by destruct (settle reader (f a)).
  - done.
  - rewrite IH. destruct (settle reader (k (reader blob))) as [reads [a|e]];
      [|done].
    by destruct (settle reader (f a)).
Qed.

End PromiseFacts.

(** ** Encoding with any reader *)

Module ReaderFacts.
Import PayloadProcessor EncodeFacts.

(** The iteration against any reader: the blobs are read in order up to the
    first read that fails; the records are appended to [result] when every
    read loads, and the promise is rejected otherwise. *)
Lemma computeFormDataEntry_any_reader (reader : Blob → FileReaderEvent)
    (iterator : list (string * FormDataEntryValue))
    (textParts : option (list Value)) (result : option (list Value)) :
  settle reader (_computeFormDataEntry iterator textParts result)
  = (reads_until_error reader (blobs_of iterator),
     if forallb (loads reader) (blobs_of iterator)
     then Normal (default [] result
                    ++ (part_record_with reader textParts <$> iterator))
     else Throw read_error).
Proof.
  revert result.
  induction iterator as [|[name [s|f]] rest IH]; intros result.
  - cbn. by rewrite app_nil_r.
  - rewrite computeFormDataEntry_string, IH.
    cbn [default id fmap list_fmap blobs_of part_record_with].
    by rewrite <- app_assoc.
  - destruct (computeFormDataEntry_file name f rest textParts result)
      as (k & -> & Hk & He).
    cbn [settle blobs_of reads_until_error forallb fmap list_fmap
         part_record_with].
    destruct (reader (file_blob f)) as [url|] eqn:Hr.
    + assert (loads reader (file_blob f) = true) as ->
        by (unfold loads; by rewrite Hr).
      assert (read_result reader (file_blob f) = url) as ->
        by (unfold read_result; by rewrite Hr).
      rewrite Hk, IH. cbn [default id andb]. by rewrite <- app_assoc.
    + assert (loads reader (file_blob f) = false) as ->
        by (unfold loads; by rewrite Hr).
      by rewrite He.
Qed.

Lemma reads_until_error_all (reader : Blob → FileReaderEvent)
    (blobs : list Blob) :
  forallb (loads reader) blobs = true →
  reads_until_error reader blobs = blobs.
Proof.
  induction blobs as [|b blobs IH]; cbn; [done|].
  intros [-> H]%andb_true_iff. by rewrite IH.
Qed.

(** What was read when a read failed: the last blob is the one that failed,
    and those before it loaded. *)
Lemma reads_until_error_last (reader : Blob → FileReaderEvent)
    (blobs : list Blob) :
  forallb (loads reader) blobs = false →
  ∃ before failed,
    reads_until_error reader blobs = before ++ [failed]
    ∧ loads reader failed = false
    ∧ forallb (loads reader) before = true
    ∧ ∃ after, blobs = before ++ failed :: after.
Proof.
  induction blobs as [|b blobs IH]; cbn; [done|].
  destruct (loads reader b) eqn:Hb; cbn.
  - intros (before & failed & -> & Hf & Hbefore & after & ->)%IH.
    exists (b :: before), failed. cbn. rewrite Hb, Hbefore.
    repeat split; try done. by exists after.
  - intros _. exists [], b. repeat split; try done. by exists blobs.
Qed.

End ReaderFacts.

(** ** Further properties of the encoding *)

Module EncodeMore.
Import PayloadProcessor EncodeFacts PromiseFacts ReaderFacts.

(** X1. [_createMultipartEntry] against any reader: the blobs are read in the
    order of the fields up to the first read that fails. When every read
    loads, the promise resolves to one record per field, each file record
    holding what the reader gave for its blob; when a read fails, the promise
    is rejected with the error of [_blobToString], the failed read is the last
    one, and no list comes out. *)
Theorem createMultipartEntry_any_reader (reader : Blob → FileReaderEvent)
    (entries : list (string * FormDataEntryValue)) (meta : option ArcMeta) :
  ∃ p,
    _createMultipartEntry
      {| fd_entries := entries; fd_has_entries := true; _arcMeta := meta |}
    = Normal p
    ∧ settle reader p
      = (reads_until_error reader (blobs_of entries),
         if forallb (loads reader) (blobs_of entries)
         then Normal (part_record_with reader (textParts_of meta) <$> entries)
         else Throw read_error)
    ∧ (forallb (loads reader) (blobs_of entries) = false →
       ∃ before failed after,
         blobs_of entries = before ++ failed :: after
         ∧ (settle reader p).1 = before ++ [failed]
         ∧ loads reader failed = false
         ∧ forallb (loads reader) before = true).
Proof.
  exists (_computeFormDataEntry entries (textParts_of meta) None).
  split; [reflexivity|].
  assert (Hs := computeFormDataEntry_any_reader reader entries
                  (textParts_of meta) None).
  cbn [default id app] in Hs. split; [exact Hs|].
  intros Hf. rewrite Hs. cbn [fst].
  destruct (reads_until_error_last reader _ Hf)
    as (before & failed & Hr & Hl & Hb & after & Ha).
  exists before, failed, after. by rewrite Hr.
Qed.

Lemma createMultipartEntry_any_reader_witness :
  ∃ p,
    _createMultipartEntry test_form = Normal p
    ∧ settle failing_reader p = ([stars_blob], Throw read_error).
Proof.
  destruct (createMultipartEntry_any_reader failing_reader
              (fd_entries test_form) (_arcMeta test_form))
    as (p & Hp & Hs & _).
  exists p. split; [exact Hp | exact Hs].
Defined.

(** X2. The [result] argument of [_computeFormDataEntry] is an accumulator:
    with any reader, a call with the array [result] reads the same blobs as a
    call without it, fails when that one fails, and resolves to [result]
    followed by what that one resolves to. *)
Theorem computeFormDataEntry_appends (reader : Blob → FileReaderEvent)
    (iterator : list (string * FormDataEntryValue))
    (textParts : option (list Value)) (result : list Value) :
  settle reader (_computeFormDataEntry iterator textParts (Some result))
  = ((settle reader (_computeFormDataEntry iterator textParts None)).1,
     (λ parts, result ++ parts)
       <$> (settle reader (_computeFormDataEntry iterator textParts None)).2).
Proof.
  rewrite !computeFormDataEntry_any_reader. cbn [fst snd default id app].
  by destruct (forallb (loads reader) (blobs_of iterator)).
Qed.

(** X3. A string field is stored as it is: whenever the encoding of a
    container resolves, with any reader, the record at the position of a
    string field is [{name, value, isFile: false}] with the string as [value],
    also when the name of the field is in the text-parts list. *)
Theorem string_part_record (reader : Blob → FileReaderEvent)
    (fd : FormData) (p : Promise (list Value))
    (reads : list Blob) (parts : list Value)
    (i : nat) (name s : string) :
  _createMultipartEntry fd = Normal p →
  settle reader p = (reads, Normal parts) →
  fd_entries fd !! i = Some (name, EntryString s) →
  parts !! i
  = Some (VObj {[ "name" := VStr name; "value" := VStr s;
                  "isFile" := VBool false ]}).
Proof.
  unfold _createMultipartEntry. destruct (fd_has_entries fd); [|done].
  intros [= <-]. rewrite computeFormDataEntry_any_reader.
  destruct (forallb (loads reader) _); [|done].
  intros [= _ <-] Hi. cbn [default id app].
  by rewrite list_lookup_fmap, Hi.
Qed.

Lemma string_part_record_witness :
  ∃ p parts,
    _createMultipartEntry test_form = Normal p
    ∧ settle platform p = ([stars_blob; stars_blob], Normal parts)
    ∧ parts !! 1%nat
      = Some (VObj {[ "name" := VStr "text"; "value" := VStr "abcd";
                      "isFile" := VBool false ]}).
Proof.
  do 2 eexists. split; [reflexivity|]. split; [by vm_compute|].
  eapply (string_part_record platform test_form _ _ _ 1 "text" "abcd");
    [reflexivity | by vm_compute | reflexivity].
Defined.

(** X4. What [payloadToString] reads and when it fails, with any reader: it
    reads the blob of a [Blob] payload, or the blobs of the fields of a
    [FormData] payload that has [entries()], in order and up to the first read
    that fails, and nothing for any other payload. It resolves exactly when
    every read loads; its only rejection is the error of a failed read. *)
Theorem payloadToString_reads (reader : Blob → FileReaderEvent)
    (request : Obj) :
  (settle reader (payloadToString request)).1
  = reads_until_error reader (payload_blobs (get request "payload"))
  ∧ match (settle reader (payloadToString request)).2 with
    | Normal _ =>
        forallb (loads reader) (payload_blobs (get request "payload")) = true
    | Throw e =>
        e = read_error
        ∧ forallb (loads reader) (payload_blobs (get request "payload"))
          = false
    end.
Proof.
  unfold payloadToString.
  destruct (get request "payload") as [| |[]|n|s|b|fd|l|o]; cbn [truthy negb];
    try done.
  - by destruct (negb (int_value n =? 0)%Z).
  - by destruct (negb (String.eqb s EmptyString)).
  - cbn [payload_blobs reads_until_error forallb then_ settle _blobToString].
    unfold loads. by destruct (reader b).
  - cbn [payload_blobs]. unfold _createMultipartEntry.
    destruct (fd_has_entries fd); cbn [negb]; [|done].
    rewrite settle_then, computeFormDataEntry_any_reader.
    destruct (forallb (loads reader) _); cbn [settle fst snd]; [|done].
    by rewrite app_nil_r.
Qed.

(** X5. What [payloadToString] resolves to can be stored: with any reader, the
    payload of the result is never a [Blob] or a [FormData]; a request whose
    payload is neither comes back as it is; and every key but [payload],
    [multipart] and [blob] has the value it had. *)
Theorem payloadToString_storable (reader : Blob → FileReaderEvent)
    (request result : Obj) (reads : list Blob) :
  settle reader (payloadToString request) = (reads, Normal result) →
  is_live_payload (get result "payload") = false
  ∧ (is_live_payload (get request "payload") = false → result = request)
  ∧ (∀ k, k ≠ "payload" → k ≠ "multipart" → k ≠ "blob" →
          result !! k = request !! k).
Proof.
  unfold payloadToString.
  destruct (get request "payload") as [| |[]|n|s|b|fd|l|o] eqn:Hp;
    cbn [truthy negb];
    try (intros [= _ <-]; by rewrite Hp).
  - destruct (negb (int_value n =? 0)%Z); cbn [negb]; intros [= _ <-];
      by rewrite Hp.
  - destruct (negb (String.eqb s EmptyString)); cbn [negb];
      intros [= _ <-]; by rewrite Hp.
  - cbn [then_ settle _blobToString]. destruct (reader b); [|done].
    cbn. intros [= _ <-]. unfold get. split; [by simplify_map_eq|].
    split; [done|]. intros k ? ? ?. by simplify_map_eq.
  - unfold _createMultipartEntry.
    destruct (fd_has_entries fd); cbn [negb].
    + rewrite settle_then, computeFormDataEntry_any_reader.
      destruct (forallb (loads reader) _); [|done].
      cbn [settle]. intros [= _ <-]. unfold get.
      split; [by simplify_map_eq|].
      split; [done|]. intros k ? ? ?. by simplify_map_eq.
    + cbn. intros [= _ <-]. unfold get. split; [by simplify_map_eq|].
      split; [done|]. intros k ? ? ?. by simplify_map_eq.
Qed.

Lemma payloadToString_storable_witness :
  is_live_payload (get stored_blob_request "payload") = false
  ∧ stored_blob_request !! "url" = blob_request !! "url".
Proof.
  destruct (payloadToString_storable platform blob_request
              stored_blob_request [stars_blob])
    as (H1 & _ & H3); [by vm_compute|].
  split; [exact H1 | by apply H3].
Defined.

End EncodeMore.

(** ** Further properties of the decoding *)

Module DecodeMore.
Import Js PayloadProcessor StringFacts CodecFacts PatternFacts Base64Facts.

Lemma split_append (sep : ascii) (a b : string) :
  split sep (a +:+ String sep b) = split sep a ++ split sep b.
Proof.
  induction a as [|c a IH]; rewrite ?append_nil, ?append_cons; simpl.
  - by rewrite Ascii.eqb_refl.
  - destruct (Ascii.eqb c sep); rewrite IH; [done|].
    by destruct (split_head sep a) as (h & t & -> & _).
Qed.

Lemma split_length (sep : ascii) (s : string) :
  contains sep s = true → (2 ≤ length (split sep s))%nat.
Proof.
  induction s as [|c s IH]; simpl; [done|].
  destruct (split_head sep s) as (h & t & Hs & _).
  destruct (Ascii.eqb c sep); simpl.
  - intros _. rewrite Hs. simpl. lia.
  - intros H. specialize (IH H). rewrite Hs in *. simpl in *. lia.
Qed.

Lemma to_lower_eqb (c : ascii) :
  Ascii.eqb (to_lower c) ";" = Ascii.eqb c ";"
  ∧ Ascii.eqb (to_lower c) "," = Ascii.eqb c ",".
Proof. destruct c as [[] [] [] [] [] [] [] []]; by vm_compute. Qed.

Lemma contains_string_of_list (c : ascii) (l : list ascii) :
  contains c (string_of_list_ascii l) = existsb (λ d, Ascii.eqb d c) l.
Proof. induction l as [|d l IH]; simpl; [done | by rewrite IH]. Qed.

(** The normalization of a type brings in no [;] and no [,]. *)
Lemma normalize_type_contains (type : string) :
  (contains ";" type = false → contains ";" (normalize_type type) = false)
  ∧ (contains "," type = false →
     contains "," (normalize_type type) = false).
Proof.
  unfold normalize_type.
  destruct (forallb is_printable (list_ascii_of_string type)); [|done].
  rewrite <- (string_of_list_ascii_of_string type) at 1 3.
  rewrite !contains_string_of_list.
  induction (list_ascii_of_string type) as [|d l [IH1 IH2]]; [done|].
  simpl. destruct (to_lower_eqb d) as [-> ->].
  split; intros [-> H]%orb_false_iff; simpl; auto.
Qed.

Lemma bare_type_spec (type : string) :
  bare_type type = true
  ↔ normalize_type type = type
    ∧ contains ";" type = false ∧ contains "," type = false.
Proof.
  unfold bare_type. rewrite !andb_true_iff, !negb_true_iff, String.eqb_eq.
  tauto.
Qed.

(** The type of a decoded blob is bare. *)
Lemma dataURLtoBlob_bare_type (dataurl : string) (b : Blob) :
  _dataURLtoBlob (VStr dataurl) = Normal b → bare_type (blob_type b) = true.
Proof.
  rewrite dataURLtoBlob_unfold.
  destruct (split_head "," dataurl) as (h & t & -> & Hh). cbn [List.nth].
  destruct (match_colon_group_semicolon h) as [mime|] eqn:Hm; [|done].
  destruct (atob _) as [bstr|]; [|done].
  intros [= <-]. cbn [new_Blob blob_type].
  apply match_colon_group_semicolon_Some in Hm as (a & r & -> & _ & Hsemi).
  rewrite contains_append in Hh. apply orb_false_iff in Hh as [_ Hh].
  simpl in Hh. rewrite contains_append in Hh.
  apply orb_false_iff in Hh as [Hcomma _].
  apply bare_type_spec. split; [apply normalize_type_idemp|].
  split; by apply normalize_type_contains.
Qed.

(** A blob of a bare type is decoded from its data URL with its bytes and
    the type of the data URL. *)
Lemma dataURLtoBlob_readAsDataURL_bare (blob : Blob) :
  bare_type (blob_type blob) = true →
  _dataURLtoBlob (VStr (readAsDataURL blob)) = Normal (restored_blob blob).
Proof.
  intros (Hn & Hsemi & Hcomma)%bare_type_spec.
  destruct blob as [bytes type]. cbn [blob_type] in *.
  rewrite dataURLtoBlob_readAsDataURL; try done.
  - destruct (data_url_type_spec type) as (_ & _ & _ & Hd & _).
    unfold new_Blob, restored_blob. cbn [blob_bytes blob_type].
    by rewrite (Hd Hn).
  - rewrite <- Hn. apply normalize_type_no_line_terminator.
Qed.

Lemma bare_type_restored_blob (blob : Blob) :
  bare_type (blob_type blob) = true →
  bare_type (blob_type (restored_blob blob)) = true.
Proof.
  rewrite !bare_type_spec. cbn [restored_blob blob_type].
  destruct (data_url_type_spec (blob_type blob)) as (H1 & H2 & _ & H4 & _).
  intros (Hn & Hsemi & Hcomma). auto.
Qed.

Lemma restored_blob_idemp (blob : Blob) :
  restored_blob (restored_blob blob) = restored_blob blob.
Proof.
  unfold restored_blob. cbn [blob_bytes blob_type].
  destruct (data_url_type_spec (blob_type blob)) as (_ & _ & _ & _ & _ & H).
  by rewrite H.
Qed.

(** X6. The text after a second comma is not read: a string with a comma and
    the same string followed by a comma and anything else decode alike, to the
    same blob or to the same exception. *)
Theorem dataURLtoBlob_ignores_tail (dataurl tail : string) :
  contains "," dataurl = true →
  _dataURLtoBlob (VStr (dataurl +:+ String "," tail))
  = _dataURLtoBlob (VStr dataurl).
Proof.
  intros Hc. rewrite !dataURLtoBlob_unfold, split_append.
  pose proof (split_length "," dataurl Hc) as Hl.
  by rewrite !app_nth1 by lia.
Qed.

Lemma dataURLtoBlob_ignores_tail_witness :
  _dataURLtoBlob (VStr (stars_url +:+ String "," "AAAA"))
  = _dataURLtoBlob (VStr stars_url).
Proof.
  apply (dataURLtoBlob_ignores_tail stars_url "AAAA"). reflexivity.
Defined.

(** X7. Whatever string [_dataURLtoBlob] decoded, the blob [b] it returned
    has a type without parameters.  Encoding [b] and decoding the result
    gives [restored_blob b]: the bytes of [b] with the type of [b], or with
    [application/octet-stream] when the type of [b] is empty.  So [b] comes
    back as it is when its type is not empty, and [restored_blob b] comes
    back as it is in every case. *)
Theorem dataURLtoBlob_stable (dataurl : string) (b : Blob) :
  _dataURLtoBlob (VStr dataurl) = Normal b →
  bare_type (blob_type b) = true
  ∧ (∃ url,
       settle platform (_blobToString b) = ([b], Normal url)
       ∧ _dataURLtoBlob (VStr url) = Normal (restored_blob b))
  ∧ (blob_type b ≠ EmptyString → restored_blob b = b)
  ∧ (∃ url,
       settle platform (_blobToString (restored_blob b))
       = ([restored_blob b], Normal url)
       ∧ _dataURLtoBlob (VStr url) = Normal (restored_blob b)).
Proof.
  intros Hb. pose proof (dataURLtoBlob_bare_type _ _ Hb) as Hbare.
  split; [done|].
  pose proof (dataURLtoBlob_readAsDataURL_bare _ Hbare) as Hone.
  pose proof (dataURLtoBlob_readAsDataURL_bare _
                (bare_type_restored_blob _ Hbare)) as Htwo.
  rewrite restored_blob_idemp in Htwo.
  split; [by eexists|]. split; [|by eexists].
  intros Hne. destruct b as [bytes type]. unfold restored_blob.
  cbn [blob_bytes blob_type] in *.
  destruct (data_url_type_spec type) as (_ & _ & _ & _ & Hd & _).
  by rewrite (Hd Hne).
Qed.

Lemma dataURLtoBlob_stable_witness :
  bare_type "text/plain" = true
  ∧ (∃ url,
       settle platform (_blobToString stars_blob) = ([stars_blob], Normal url)
       ∧ _dataURLtoBlob (VStr url) = Normal stars_blob)
  ∧ ("text/plain" ≠ EmptyString → stars_blob = stars_blob)
  ∧ (∃ url,
       settle platform (_blobToString stars_blob) = ([stars_blob], Normal url)
       ∧ _dataURLtoBlob (VStr url) = Normal stars_blob).
Proof.
  apply (dataURLtoBlob_stable "data:Text/Plain;charset=utf-8;base64,Kioq"
           stars_blob).
  by vm_compute.
Defined.

(** X8. Only the text between the first [:] and the first [;] counts as the
    type.  For a text [m] without [;], [,] and line terminators, whatever
    stands between that [;] and the comma (parameters, with or without the
    token [base64]) is dropped, and the payload is decoded as base64 all the
    same.  The blob has the bytes of the payload and the type that the [Blob]
    constructor makes of [m]: [m] in lower case, or the empty type when [m]
    has a character outside U+0020 to U+007E. *)
Theorem dataURLtoBlob_ignores_parameters
    (b : list byte) (m params : string) :
  contains ";" m = false →
  contains "," m = false →
  no_line_terminator m = true →
  contains "," params = false →
  _dataURLtoBlob
    (VStr ("data:" +:+ m +:+ String ";" params
             +:+ String "," (string_of_list_ascii (b64_encode b))))
  = Normal {| blob_bytes := b; blob_type := normalize_type m |}.
Proof. apply dataURLtoBlob_data_url. Qed.

Lemma dataURLtoBlob_ignores_parameters_witness :
  _dataURLtoBlob (VStr "data:Text/Plain;charset=utf-8,Kioq")
  = Normal {| blob_bytes := stars; blob_type := "text/plain" |}.
Proof.
  exact (dataURLtoBlob_ignores_parameters stars "Text/Plain" "charset=utf-8"
           eq_refl eq_refl eq_refl eq_refl).
Defined.

End DecodeMore.

(** ** Further properties of the restoring *)

Module RestoreMore.
Import PayloadProcessor RestoreFacts.

Lemma prop_not_nullish (v : Value) (k : string) :
  nullish v = false → ∃ x, prop v k = Normal x.
Proof. destruct v; cbn; intros; try done; by eexists. Qed.

Lemma restorePart_nullish (fd : FormData) (v : Value) :
  nullish v = true → restorePart fd v = Throw TypeError.
Proof. by destruct v. Qed.

Lemma restorePart_not_nullish (fd : FormData) (v : Value) :
  nullish v = false →
  ∃ fd',
    restorePart fd v = Normal fd'
    ∧ length (fd_entries fd') = S (length (fd_entries fd)).
Proof.
  intros Hv. unfold restorePart.
  destruct (prop_not_nullish v "name" Hv) as [name ->].
  destruct (prop_not_nullish v "isFile" Hv) as [isFile ->].
  destruct (prop_not_nullish v "value" Hv) as [value ->].
  destruct (prop_not_nullish v "isTextBlob" Hv) as [isTextBlob ->].
  cbn [mbind Completion_bind].
  destruct (truthy isFile); [|destruct (truthy isTextBlob)];
    try destruct (_dataURLtoBlob value); cbn;
    eexists; (split; [reflexivity|]); cbn; rewrite length_app; cbn; lia.
Qed.

Lemma forEach_outcome (l : list Value) (fd : FormData) :
  if existsb nullish l then forEach l fd = Throw TypeError
  else ∃ fd',
         forEach l fd = Normal fd'
         ∧ length (fd_entries fd') = (length (fd_entries fd) + length l)%nat.
Proof.
  revert fd. induction l as [|v l IH]; intros fd; cbn [existsb forEach].
  - exists fd. split; [done|]. cbn. lia.
  - destruct (nullish v) eqn:Hv; cbn [orb].
    + by rewrite restorePart_nullish.
    + destruct (restorePart_not_nullish fd v Hv) as (fd1 & -> & Hl).
      cbn [mbind Completion_bind]. specialize (IH fd1).
      destruct (existsb nullish l); [done|].
      destruct IH as (fd' & -> & Hl'). exists fd'. split; [done|].
      cbn [length]. lia.
Qed.

(** X9. When [restoreMultipart] throws, for any value given as the model: on
    an array exactly when an element is [null] or [undefined]; on another
    value exactly when it is a string that is not empty or an object with a
    truthy [length]; the exception is a [TypeError]. An array without such an
    element is restored to a container with one field per element. *)
Theorem restoreMultipart_outcome (model : Value) :
  (if restore_throws model then restoreMultipart model = Throw TypeError
   else ∃ fd, restoreMultipart model = Normal fd)
  ∧ ∀ l fd,
      model = VArr l → restoreMultipart model = Normal fd →
      length (fd_entries fd) = length l.
Proof.
  split.
  - unfold restoreMultipart.
    destruct model as [| |[]|n|s|b|fd|l|o];
      cbn [prop mbind Completion_bind restore_throws
           String.eqb Ascii.eqb Bool.eqb];
      rewrite ?truthy_length_number; cbn [truthy negb];
      try by eexists.
    + destruct (negb (int_value n =? 0)%Z); by eexists.
    + destruct s as [|c s]; cbn; [by eexists | done].
    + destruct l as [|v l]; [by eexists|].
      cbn [length Nat.eqb negb].
      pose proof (forEach_outcome (v :: l)
        {| fd_entries := fd_entries new_FormData;
           fd_has_entries := fd_has_entries new_FormData;
           _arcMeta := Some {| textParts := Some [] |} |}) as H.
      destruct (existsb nullish (v :: l)); [done|].
      destruct H as (fd' & -> & _). by eexists.
    + destruct (truthy (get o "length")); cbn [negb]; [done | by eexists].
  - intros l fd -> . unfold restoreMultipart.
    destruct l as [|v l]; [by intros [= <-]|].
    cbn [prop mbind Completion_bind String.eqb Ascii.eqb Bool.eqb].
    rewrite truthy_length_number. cbn [truthy negb length Nat.eqb].
    pose proof (forEach_outcome (v :: l)
      {| fd_entries := fd_entries new_FormData;
         fd_has_entries := fd_has_entries new_FormData;
         _arcMeta := Some {| textParts := Some [] |} |}) as H.
    destruct (existsb nullish (v :: l)); [by rewrite H|].
    destruct H as (fd' & -> & Hl). by intros [= <-].
Qed.

Lemma restoreMultipart_outcome_witness :
  restoreMultipart (VArr [VObj text_model; VNull]) = Throw TypeError
  ∧ ∃ fd, restoreMultipart (VArr [VObj text_model; VStr "x"]) = Normal fd
          ∧ length (fd_entries fd) = 2%nat.
Proof.
  split.
  - exact (proj1 (restoreMultipart_outcome
                    (VArr [VObj text_model; VNull]))).
  - destruct (proj1 (restoreMultipart_outcome
                       (VArr [VObj text_model; VStr "x"]))) as [fd Hfd].
    exists fd. split; [exact Hfd|].
    exact (proj2 (restoreMultipart_outcome
                    (VArr [VObj text_model; VStr "x"]))
                 _ fd eq_refl Hfd).
Defined.

(** X10. A record that is not marked as binary is restored as it is stored:
    its field holds the stored string itself, even when that string is a data
    URL, and no other record changes that. *)
Theorem restoreMultipart_text_record
    (parts : list Obj) (i : nat) (part : Obj) (s : string) :
  parts !! i = Some part →
  binary_marked part = false →
  get part "value" = VStr s →
  ∃ fd,
    restoreMultipart (VArr (VObj <$> parts)) = Normal fd
    ∧ fd_entries fd !! i = Some (ToString (get part "name"), EntryString s).
Proof.
  intros Hi Hmark Hs. eexists. split; [apply restoreMultipart_records|].
  cbn [fd_entries]. rewrite list_lookup_fmap, Hi. cbn.
  unfold restored_value. by rewrite Hmark, Hs.
Qed.

Lemma restoreMultipart_text_record_witness :
  ∃ fd,
    restoreMultipart
      (VArr (VObj <$> [<["value" := VStr stars_url]> text_model]))
    = Normal fd
    ∧ fd_entries fd !! 0%nat = Some ("test-name", EntryString stars_url).
Proof.
  exact (restoreMultipart_text_record
           [<["value" := VStr stars_url]> text_model] 0
           (<["value" := VStr stars_url]> text_model) stars_url
           eq_refl eq_refl eq_refl).
Defined.

Lemma restorePayload_nothing_to_restore (request : Obj) :
  truthy (get request "multipart") = false →
  truthy (get request "blob") = false →
  restorePayload request = ([], request).
Proof. intros Hm Hb. unfold restorePayload. by rewrite Hm, Hb. Qed.

(** X11. What [restorePayload] leaves alone and what it leaves behind, for
    every request: every key but [payload], [multipart] and [blob] has the
    value it had; the result has no truthy [multipart], and no truthy [blob]
    unless [multipart] was truthy; at most one warning is written, and when
    one is written [payload] is as it was. *)
Theorem restorePayload_frame (request : Obj) :
  (∀ k, k ≠ "payload" → k ≠ "multipart" → k ≠ "blob" →
        (restorePayload request).2 !! k = request !! k)
  ∧ truthy (get (restorePayload request).2 "multipart") = false
  ∧ (truthy (get request "multipart") = false →
     truthy (get (restorePayload request).2 "blob") = false)
  ∧ (length (restorePayload request).1 ≤ 1)%nat
  ∧ ((restorePayload request).1 ≠ [] →
     (restorePayload request).2 !! "payload" = request !! "payload").
Proof.
  unfold restorePayload.
  destruct (truthy (get request "multipart")) eqn:Hm.
  - destruct (restoreMultipart _); cbn [fst snd length]; unfold get;
      repeat split; try done; try lia; intros; by simplify_map_eq.
  - destruct (truthy (get request "blob")) eqn:Hb.
    + destruct (_dataURLtoBlob _); cbn [fst snd length]; unfold get;
        repeat split; try done; try lia; intros; simplify_map_eq; try done;
        by rewrite <- Hm.
    + cbn [fst snd length]. repeat split; try done; lia.
Qed.

Lemma restorePayload_frame_witness :
  (restorePayload stored_blob_request).2 !! "url"
  = stored_blob_request !! "url"
  ∧ truthy (get (restorePayload stored_blob_request).2 "blob") = false.
Proof.
  destruct (restorePayload_frame stored_blob_request)
    as (H1 & _ & H3 & _).
  split; [by apply H1 | by apply H3].
Defined.

(** X12. [restorePayload] comes to rest: a second call changes nothing when
    [multipart] was not truthy, and a third call changes nothing in any case
    (a second call can still decode a [blob] that the first one left beside a
    truthy [multipart]). *)
Theorem restorePayload_fixed_point (request : Obj) :
  (truthy (get request "multipart") = false →
   restorePayload (restorePayload request).2
   = ([], (restorePayload request).2))
  ∧ restorePayload (restorePayload (restorePayload request).2).2
    = ([], (restorePayload (restorePayload request).2).2).
Proof.
  assert (H1 : ∀ r, truthy (get r "multipart") = false →
            restorePayload (restorePayload r).2 = ([], (restorePayload r).2)).
  { intros r Hm. destruct (restorePayload_frame r) as (_ & Hm' & Hb' & _).
    apply restorePayload_nothing_to_restore; auto. }
  split; [apply H1|].
  apply H1. by destruct (restorePayload_frame request) as (_ & Hm & _).
Qed.

Lemma restorePayload_fixed_point_witness :
  restorePayload (restorePayload stored_blob_request).2
  = ([], (restorePayload stored_blob_request).2).
Proof.
  apply (proj1 (restorePayload_fixed_point stored_blob_request)).
  reflexivity.
Defined.

End RestoreMore.

(** ** Round trips through the stored form *)

Module RoundTrip.
Import PayloadProcessor RestoreFacts EncodeFacts CodecFacts DecodeMore.

Lemma readAsDataURL_truthy (blob : Blob) :
  truthy (VStr (readAsDataURL blob)) = true.
Proof. reflexivity. Qed.

(** A restored blob is read to the data URL of the blob it came from. *)
Lemma readAsDataURL_restored_blob (blob : Blob) :
  readAsDataURL (restored_blob blob) = readAsDataURL blob.
Proof.
  unfold readAsDataURL, restored_blob. cbn [blob_bytes blob_type].
  destruct (data_url_type_spec (blob_type blob)) as (_ & _ & _ & _ & _ & H).
  by rewrite H.
Qed.

Lemma restored_blob_typed (blob : Blob) :
  blob_type blob ≠ EmptyString → restored_blob blob = blob.
Proof.
  intros Hne. destruct blob as [bytes type]. unfold restored_blob.
  cbn [blob_bytes blob_type] in *.
  destruct (data_url_type_spec type) as (_ & _ & _ & _ & Hd & _).
  by rewrite (Hd Hne).
Qed.

Lemma part_record_obj (textParts : option (list Value))
    (entry : string * FormDataEntryValue) :
  part_record textParts entry = VObj (obj_of (part_record textParts entry)).
Proof.
  destruct entry as [name [s|f]]; cbn [part_record];
    unfold string_record, file_record;
    [|destruct (isMarkedTextBlob textParts name)]; reflexivity.
Qed.

(** The record of a field, read back: the field it is restored to and
    whether its name goes to the text-parts list. *)
Lemma part_record_restored (textParts : option (list Value))
    (entry : string * FormDataEntryValue) :
  bare_blobs [entry] = true →
  let part := obj_of (part_record textParts entry) in
  form_entry (get part "name") (restored_value part) = restored_entry entry
  ∧ get part "name" = VStr entry.1
  ∧ text_blob_marked part
    = match entry.2 with
      | EntryFile _ => isMarkedTextBlob textParts entry.1
      | EntryString _ => false
      end.
Proof.
  destruct entry as [name [s|f]]; cbn [part_record fst snd].
  - intros _. unfold string_record. cbn [obj_of].
    unfold restored_value, binary_marked, text_blob_marked, get.
    by simplify_map_eq.
  - unfold bare_blobs. cbn [blobs_of forallb].
    rewrite andb_true_r. intros Hb%dataURLtoBlob_readAsDataURL_bare.
    unfold file_record.
    destruct (isMarkedTextBlob textParts name); cbn [obj_of];
      unfold restored_value, binary_marked, text_blob_marked, get;
      simplify_map_eq; by rewrite Hb.
Qed.

Lemma bare_blobs_cons (entry : string * FormDataEntryValue)
    (entries : list (string * FormDataEntryValue)) :
  bare_blobs (entry :: entries) = bare_blobs [entry] && bare_blobs entries.
Proof.
  unfold bare_blobs. destruct entry as [name [s|f]]; cbn [blobs_of forallb];
    [done | by rewrite andb_true_r].
Qed.

Lemma bare_blobs_lookup (entries : list (string * FormDataEntryValue))
    (i : nat) (entry : string * FormDataEntryValue) :
  bare_blobs entries = true → entries !! i = Some entry →
  bare_blobs [entry] = true.
Proof.
  revert i. induction entries as [|e entries IH]; intros i; [done|].
  rewrite bare_blobs_cons. intros [He Hes]%andb_true_iff.
  destruct i as [|i]; cbn; [by intros [= <-] | by apply IH].
Qed.

Lemma filter_part_records (textParts : option (list Value))
    (entries : list (string * FormDataEntryValue)) :
  bare_blobs entries = true →
  (λ part, get part "name")
    <$> List.filter text_blob_marked
          (obj_of ∘ part_record textParts <$> entries)
  = marked_names textParts entries.
Proof.
  induction entries as [|entry entries IH]; [done|].
  rewrite bare_blobs_cons. intros [He Hes]%andb_true_iff.
  cbn [fmap list_fmap List.filter]. unfold compose at 1 2.
  destruct (part_record_restored textParts entry He) as (_ & Hname & ->).
  destruct entry as [name [s|f]]; cbn [fst snd marked_names] in *.
  - by apply IH.
  - destruct (isMarkedTextBlob textParts name); cbn [fmap list_fmap];
      rewrite ?Hname; by rewrite IH.
Qed.

(** Restoring the records of a container. *)
Lemma restoreMultipart_part_records (fd : FormData) :
  bare_blobs (fd_entries fd) = true →
  restoreMultipart
    (VArr (part_record (textParts_of (_arcMeta fd)) <$> fd_entries fd))
  = Normal (restored_form fd).
Proof.
  intros Hbare. set (tp := textParts_of (_arcMeta fd)).
  replace (part_record tp <$> fd_entries fd)
    with (VObj <$> (obj_of ∘ part_record tp <$> fd_entries fd)).
  2:{ rewrite <- list_fmap_compose. apply list_fmap_ext.
      intros _ entry _. symmetry. apply part_record_obj. }
  rewrite restoreMultipart_records. unfold restored_form. fold tp.
  rewrite filter_part_records by done.
  f_equal. f_equal.
  - rewrite <- list_fmap_compose. apply list_fmap_ext.
    intros i entry Hi. unfold compose.
    by destruct (part_record_restored tp entry
                   (bare_blobs_lookup _ _ _ Hbare Hi)) as (-> & _).
  - by destruct (fd_entries fd).
Qed.

Lemma indexOf_ge (l : list Value) (name : string) : (-1 ≤ indexOf l name)%Z.
Proof.
  induction l as [|v l IH]; cbn [indexOf]; [lia|].
  destruct (indexOf l name =? -1)%Z eqn:Hi;
    destruct v; try lia; destruct (String.eqb _ name); lia.
Qed.

(** A name is in the text-parts list when one of its elements is that
    string. *)
Lemma isMarkedTextBlob_existsb (l : list Value) (name : string) :
  isMarkedTextBlob (Some l) name
  = existsb (λ v, match v with
                  | VStr s => String.eqb s name
                  | _ => false
                  end) l.
Proof.
  unfold isMarkedTextBlob.
  induction l as [|v l IH]; cbn [indexOf existsb]; [done|].
  pose proof (indexOf_ge l name) as Hge.
  rewrite <- IH.
  destruct (Z.eqb_spec (indexOf l name) (-1)) as [Hi|Hi];
    destruct v; cbn [negb orb]; try done;
    try (destruct (Z.eqb_spec (indexOf l name + 1) (-1)); [lia | done]).
  - by destruct (String.eqb s name).
  - destruct (String.eqb s name); [done|].
    destruct (Z.eqb_spec (indexOf l name + 1) (-1)); [lia | done].
Qed.

Lemma isMarkedTextBlob_marked_names (textParts : option (list Value))
    (entries : list (string * FormDataEntryValue)) (name : string) :
  isMarkedTextBlob (Some (marked_names textParts entries)) name
  = isMarkedTextBlob textParts name && has_file_field name entries.
Proof.
  rewrite isMarkedTextBlob_existsb. unfold has_file_field.
  induction entries as [|[n [s|f]] entries IH]; cbn [marked_names existsb].
  - by rewrite andb_false_r.
  - by rewrite IH.
  - destruct (isMarkedTextBlob textParts n) eqn:Hn; cbn [existsb];
      rewrite IH; destruct (String.eqb_spec n name) as [->|]; cbn [orb];
      rewrite ?Hn; by cbn [andb].
Qed.

Lemma has_file_field_lookup (entries : list (string * FormDataEntryValue))
    (i : nat) (name : string) (f : File) :
  entries !! i = Some (name, EntryFile f) →
  has_file_field name entries = true.
Proof.
  intros Hi. apply existsb_exists. exists (name, EntryFile f).
  split; [|apply String.eqb_refl].
  apply list_elem_of_In, list_elem_of_lookup. by exists i.
Qed.

Lemma blobs_of_restored (entries : list (string * FormDataEntryValue)) :
  blobs_of (restored_entry <$> entries) = restored_blob <$> blobs_of entries.
Proof.
  induction entries as [|[n [s|f]] entries IH]; cbn; by rewrite ?IH.
Qed.

(** X13. Round trip of a container: for every container that has [entries()]
    and whose blobs have types without parameters, restoring the records it
    was encoded to gives the container back field by field, in order: names
    and strings as they were, blobs with their bytes.  Three things change:
    every file comes back with the name [blob]; a blob without a type comes
    back with the type [application/octet-stream] (a blob with a type keeps
    it); and the text-parts list comes back as the names of the marked file
    fields in field order, or not at all when the container is empty. *)
Theorem multipart_roundtrip (fd : FormData) :
  fd_has_entries fd = true →
  bare_blobs (fd_entries fd) = true →
  ∃ p parts,
    _createMultipartEntry fd = Normal p
    ∧ settle platform p = (blobs_of (fd_entries fd), Normal parts)
    ∧ restoreMultipart (VArr parts)
      = Normal
          {| fd_entries := restored_entry <$> fd_entries fd;
             fd_has_entries := true;
             _arcMeta :=
               match fd_entries fd with
               | [] => None
               | _ :: _ =>
                   Some {| textParts :=
                             Some (marked_names (textParts_of (_arcMeta fd))
                                     (fd_entries fd)) |}
               end |}.
Proof.
  intros Hentries Hbare.
  destruct (createMultipartEntry_settle (fd_entries fd) (_arcMeta fd))
    as (p & Hp & Hs & _).
  exists p. eexists. split; [|split; [exact Hs|]].
  - destruct fd as [entries has meta]. cbn in Hentries. by subst has.
  - by apply restoreMultipart_part_records.
Qed.

Lemma multipart_roundtrip_witness :
  ∃ p parts,
    _createMultipartEntry untyped_form = Normal p
    ∧ settle platform p
      = ([stars_blob; untyped_blob], Normal parts)
    ∧ restoreMultipart (VArr parts)
      = Normal
          {| fd_entries :=
               [("file", EntryFile {| file_blob := stars_blob;
                                      file_name := "blob" |});
                ("text", EntryString "abcd");
                ("text-part",
                 EntryFile
                   {| file_blob :=
                        {| blob_bytes := stars;
                           blob_type := "application/octet-stream" |};
                      file_name := "blob" |})];
             fd_has_entries := true;
             _arcMeta := Some {| textParts := Some [VStr "text-part"] |} |}.
Proof.
  exact (multipart_roundtrip untyped_form eq_refl eq_refl).
Defined.

(** X14. Round trip of a request with a [FormData] payload: for every request
    without a [multipart] key whose payload is a container that has
    [entries()] and blobs of types without parameters, [restorePayload] on
    what [payloadToString] resolved to writes no warning and gives the
    request back with the container of [restored_form] as its payload (the
    container that [restoreMultipart] makes of the stored records); every
    other key is as it was. *)
Theorem request_roundtrip_form (request : Obj) (fd : FormData) :
  request !! "payload" = Some (VFormData fd) →
  request !! "multipart" = None →
  fd_has_entries fd = true →
  bare_blobs (fd_entries fd) = true →
  ∃ stored,
    settle platform (payloadToString request)
    = (blobs_of (fd_entries fd), Normal stored)
    ∧ restoreMultipart (get stored "multipart") = Normal (restored_form fd)
    ∧ restorePayload stored
      = ([], <["payload" := VFormData (restored_form fd)]> request).
Proof.
  intros Hp Hm Hentries Hbare.
  exists (<["multipart" :=
             VArr (part_record (textParts_of (_arcMeta fd))
                     <$> fd_entries fd)]>
            (<["payload" := VUndefined]> request)).
  split; [|split].
  - unfold payloadToString, get, _createMultipartEntry. rewrite Hp.
    cbn [default id truthy negb]. rewrite Hentries. cbn [negb].
    rewrite PromiseFacts.settle_then, computeFormDataEntry_settle.
    cbn [settle default id app]. by rewrite app_nil_r.
  - unfold get. rewrite lookup_insert_eq. cbn [default id].
    by apply restoreMultipart_part_records.
  - unfold restorePayload, get. rewrite lookup_insert_eq.
    cbn [default id truthy].
    rewrite restoreMultipart_part_records by done.
    f_equal. apply map_eq. intros k.
    destruct (decide (k = "multipart")) as [->|]; [by simplify_map_eq|].
    destruct (decide (k = "payload")) as [->|]; by simplify_map_eq.
Qed.

Lemma request_roundtrip_form_witness :
  ∃ stored,
    settle platform (payloadToString form_request)
    = ([stars_blob; stars_blob], Normal stored)
    ∧ restoreMultipart (get stored "multipart")
      = Normal (restored_form test_form)
    ∧ restorePayload stored
      = ([], <["payload" := VFormData (restored_form test_form)]>
               form_request).
Proof.
  exact (request_roundtrip_form form_request test_form
           eq_refl eq_refl eq_refl eq_refl).
Defined.

(** X15. Round trip of a request with a [Blob] payload: for every request
    without a [blob] key and without a truthy [multipart] whose payload is a
    blob of a type without parameters, [restorePayload] on what
    [payloadToString] resolved to writes no warning and gives the request
    back with a blob of the same bytes as its payload; the type of that blob
    is the type of the payload, or [application/octet-stream] when the
    payload had no type.  So a payload with a type gives back the very
    request. *)
Theorem request_roundtrip_blob (request : Obj) (b : Blob) :
  request !! "payload" = Some (VBlob b) →
  request !! "blob" = None →
  truthy (get request "multipart") = false →
  bare_type (blob_type b) = true →
  ∃ stored,
    settle platform (payloadToString request) = ([b], Normal stored)
    ∧ restorePayload stored
      = ([], <["payload" :=
                 VBlob {| blob_bytes := blob_bytes b;
                          blob_type := data_url_type (blob_type b) |}]>
               request)
    ∧ (blob_type b ≠ EmptyString → restorePayload stored = ([], request)).
Proof.
  intros Hp Hb Hm Hbare.
  assert (Hr : restorePayload
                 (<["blob" := VStr (readAsDataURL b)]>
                    (<["payload" := VUndefined]> request))
               = ([], <["payload" := VBlob (restored_blob b)]> request)).
  { unfold restorePayload.
    replace (get (<["blob":=VStr (readAsDataURL b)]>
                    (<["payload":=VUndefined]> request)) "multipart")
      with (get request "multipart") by (unfold get; by simplify_map_eq).
    rewrite Hm.
    replace (get (<["blob":=VStr (readAsDataURL b)]>
                    (<["payload":=VUndefined]> request)) "blob")
      with (VStr (readAsDataURL b)) by (unfold get; by simplify_map_eq).
    rewrite readAsDataURL_truthy, dataURLtoBlob_readAsDataURL_bare by done.
    f_equal. apply map_eq. intros k.
    destruct (decide (k = "blob")) as [->|]; [by simplify_map_eq|].
    destruct (decide (k = "payload")) as [->|]; by simplify_map_eq. }
  eexists. split; [|split].
  - unfold payloadToString, get. rewrite Hp. reflexivity.
  - exact Hr.
  - intros Hne. rewrite Hr, restored_blob_typed by done.
    f_equal. by apply insert_id.
Qed.

Lemma request_roundtrip_blob_witness :
  ∃ stored,
    settle platform (payloadToString untyped_blob_request)
    = ([untyped_blob], Normal stored)
    ∧ restorePayload stored
      = ([], <["payload" :=
                 VBlob {| blob_bytes := stars;
                          blob_type := "application/octet-stream" |}]>
               untyped_blob_request).
Proof.
  destruct (request_roundtrip_blob untyped_blob_request untyped_blob
              eq_refl eq_refl eq_refl eq_refl) as (stored & Hs & Hr & _).
  exists stored. split; [exact Hs | exact Hr].
Defined.

(** X16. The restored container stands for the same stored data: for every
    container that has [entries()] and whose blobs have types without
    parameters, [restoreMultipart] on the records it was encoded to returns a
    container that [_createMultipartEntry] encodes to the very same records,
    in the same order; the blobs read for that are the blobs of the first
    container with the types of their data URLs. *)
Theorem restoreMultipart_encodes_alike (fd : FormData) :
  fd_has_entries fd = true →
  bare_blobs (fd_entries fd) = true →
  ∃ p parts fd' p',
    _createMultipartEntry fd = Normal p
    ∧ settle platform p = (blobs_of (fd_entries fd), Normal parts)
    ∧ restoreMultipart (VArr parts) = Normal fd'
    ∧ _createMultipartEntry fd' = Normal p'
    ∧ settle platform p'
      = (restored_blob <$> blobs_of (fd_entries fd), Normal parts).
Proof.
  intros Hentries Hbare.
  set (tp := textParts_of (_arcMeta fd)).
  set (tp' := textParts_of (_arcMeta (restored_form fd))).
  assert (Hmark : ∀ name, has_file_field name (fd_entries fd) = true →
            isMarkedTextBlob tp' name = isMarkedTextBlob tp name).
  { intros name Hname. unfold tp', restored_form. cbn [_arcMeta].
    destruct (fd_entries fd) as [|e es] eqn:He; [done|].
    rewrite <- He in *. cbn [textParts_of textParts].
    by rewrite isMarkedTextBlob_marked_names, Hname, andb_true_r. }
  destruct (createMultipartEntry_settle (fd_entries fd) (_arcMeta fd))
    as (p & Hp & Hs & _).
  destruct (createMultipartEntry_settle (fd_entries (restored_form fd))
              (_arcMeta (restored_form fd))) as (p' & Hp' & Hs' & _).
  exists p, (part_record tp <$> fd_entries fd), (restored_form fd), p'.
  split; [|split; [exact Hs|split; [|split; [exact Hp'|]]]].
  - destruct fd as [entries has meta]. cbn in Hentries. by subst has.
  - by apply restoreMultipart_part_records.
  - rewrite Hs'. fold tp'. cbn [restored_form fd_entries].
    rewrite blobs_of_restored. do 2 f_equal.
    rewrite <- list_fmap_compose. apply list_fmap_ext.
    intros i [name [s|f]] Hi; cbn [compose restored_entry part_record];
      [done|].
    unfold file_record. cbn [file_blob].
    rewrite readAsDataURL_restored_blob.
    by rewrite (Hmark name (has_file_field_lookup _ _ _ _ Hi)).
Qed.

Lemma restoreMultipart_encodes_alike_witness :
  ∃ p parts fd' p',
    _createMultipartEntry untyped_form = Normal p
    ∧ settle platform p
      = ([stars_blob; untyped_blob], Normal parts)
    ∧ restoreMultipart (VArr parts) = Normal fd'
    ∧ _createMultipartEntry fd' = Normal p'
    ∧ settle platform p'
      = ([stars_blob;
          {| blob_bytes := stars;
             blob_type := "application/octet-stream" |}],
         Normal parts).
Proof.
  exact (restoreMultipart_encodes_alike untyped_form eq_refl eq_refl).
Defined.

End RoundTrip.
